(** * ZELE Ecommerce API

    A shallow embedding of [main.py] and [schemas.py]: the pydantic models
    become records, the request handlers become functions in a small
    state-and-exception monad over the document store, and Python's [float]
    is Rocq's primitive binary64 [float]. *)

From Stdlib Require Import ZArith NArith List String Ascii Bool Floats Lia.
Import ListNotations.

Set Warnings "-inexact-float".

Local Open Scope string_scope.
Local Open Scope Z_scope.

(* ================================================================= *)
(** ** Python values *)

Module Py.

(** [float(n)] for a Python [int]: round to nearest-even binary64;
    CPython raises [OverflowError] when the rounded value is not finite.
    [None] stands for that exception. *)
Definition float_of_int (n : Z) : option float :=
  let f := SF2Prim (binary_normalize prec emax n 0 false) in
  if PrimFloat.is_infinity f then None else Some f.

(** [x > y] on floats: false as soon as one side is NaN. *)
Definition gt (x y : float) : bool := PrimFloat.ltb y x.

(** A [str] is held as its UTF-8 bytes: a character is one byte that is
    not a continuation byte, followed by its continuation bytes
    ([10xxxxxx], 128 to 191). *)
Definition is_continuation (c : ascii) : bool :=
  ((128 <=? N_of_ascii c) && (N_of_ascii c <? 192))%N.

(** [len(s)]: the number of characters. *)
Fixpoint len (s : string) : nat :=
  match s with
  | EmptyString => O
  | String c s' => if is_continuation c then len s' else S (len s')
  end.

(** [s[:n]] on a string: its first [n] characters, each with all of its
    bytes. *)
Fixpoint take (n : nat) (s : string) : string :=
  match s with
  | EmptyString => EmptyString
  | String c s' =>
      if is_continuation c then String c (take n s')
      else match n with
           | O => EmptyString
           | S n' => String c (take n' s')
           end
  end.

(** Truthiness of a [str]: non-empty. *)
Definition truthy (s : string) : bool :=
  match s with EmptyString => false | String _ _ => true end.

End Py.

(* ================================================================= *)
(** ** schemas.py *)

Module Product.
Record t := mk {
  title : string;
  slug : string;
  description : string;
  short_description : option string;
  price : float;
  category : string;
  colors : list string;
  sizes : list Z;
  images : list string;
  leather : option string;
  craftsmanship : option string;
  is_featured : bool
}.
End Product.
Abbreviation Product := Product.t (only parsing).

Module Review.
Record t := mk {
  product_id : string;
  name : string;
  rating : Z;
  comment : string;
  created_at : option Z
}.
End Review.
Abbreviation Review := Review.t (only parsing).

Module OrderItem.
Record t := mk {
  product_id : string;
  title : string;
  price : float;
  size : Z;
  color : string;
  quantity : Z
}.
End OrderItem.
Abbreviation OrderItem := OrderItem.t (only parsing).

Module Address.
Record t := mk {
  full_name : string;
  email : string;
  phone : option string;
  line1 : string;
  line2 : option string;
  city : string;
  state : string;
  country : string;
  postal_code : string
}.
End Address.
Abbreviation Address := Address.t (only parsing).

Module Order.
Record t := mk {
  items : list OrderItem;
  shipping : Address;
  subtotal : float;
  shipping_cost : float;
  total : float;
  status : string
}.
End Order.
Abbreviation Order := Order.t (only parsing).

Module Newsletter.
Record t := mk { email : string }.
End Newsletter.
Abbreviation Newsletter := Newsletter.t (only parsing).

Module ContactMessage.
Record t := mk {
  name : string;
  email : string;
  subject : string;
  message : string
}.
End ContactMessage.
Abbreviation ContactMessage := ContactMessage.t (only parsing).

(** The [Field] constraints of schemas.py ([ge], [le]); pydantic checks them
    before a handler runs. *)
Definition valid_Product (p : Product) : bool :=
  PrimFloat.leb 0%float (Product.price p).

Definition valid_Review (r : Review) : bool :=
  (1 <=? Review.rating r) && (Review.rating r <=? 5).

Definition valid_OrderItem (i : OrderItem) : bool :=
  1 <=? OrderItem.quantity i.

Definition valid_Order (o : Order) : bool :=
  forallb valid_OrderItem (Order.items o).

(* ================================================================= *)
(** ** The store's native identifier *)

Module Bson.

(** Modelled from the spec: the store's native document identifier and its
    string codec ([bson.ObjectId], imported by main.py from outside the
    repository).  An identifier is a 96-bit number; its wire form is 24
    hexadecimal digits; a string of another length or with another
    character is not a valid identifier. *)
Definition ObjectId := N.

Definition hex_digit (n : N) : ascii :=
  nth (N.to_nat n) (list_ascii_of_string "0123456789abcdef") "0"%char.

Fixpoint hex_fixed (width : nat) (n : N) : string :=
  match width with
  | O => ""
  | S w => hex_fixed w (n / 16) ++ String (hex_digit (n mod 16)) ""
  end.

(** [str(ObjectId)]: total. *)
Definition str (o : ObjectId) : string := hex_fixed 24 o.

Definition hex_value (c : ascii) : option N :=
  let n := N_of_ascii c in
  if ((48 <=? n) && (n <=? 57))%N then Some (n - 48)%N
  else if ((97 <=? n) && (n <=? 102))%N then Some (n - 87)%N
  else if ((65 <=? n) && (n <=? 70))%N then Some (n - 55)%N
  else None.

Fixpoint hex_parse (acc : N) (s : string) : option N :=
  match s with
  | EmptyString => Some acc
  | String c s' =>
      match hex_value c with
      | Some d => hex_parse (acc * 16 + d)%N s'
      | None => None
      end
  end.

(** [ObjectId(id_str)]: [None] stands for [InvalidId]. *)
Definition parse (id_str : string) : option ObjectId :=
  if Nat.eqb (String.length id_str) 24 then hex_parse 0%N id_str else None.

End Bson.


(* ================================================================= *)
(** ** Regular expressions of the store *)

Module Regex.

(** Modelled from the spec: how the store evaluates a [$regex] filter (the
    database engine is outside the repository).  Only a fragment of the
    pattern language is given a meaning: a pattern [^ ... $] whose body is
    made of ASCII literals, [.] and a postfix [*], with options [""] or
    ["i"]; [None] is returned for every other pattern or option and for a
    subject with a non-ASCII byte.  Within the fragment: under option [i]
    letters compare without regard to ASCII case, [.] is any character but
    a line feed, and [$] holds at the end of the subject or just before a
    final line feed. *)
Inductive atom := Lit (c : ascii) | Dot.
Inductive piece := One (a : atom) | Star (a : atom).

Definition LF : ascii := "010"%char.

Definition lower (c : ascii) : ascii :=
  let n := N_of_ascii c in
  if ((65 <=? n) && (n <=? 90))%N then ascii_of_N (n + 32) else c.

Definition is_ascii (c : ascii) : bool := (N_of_ascii c <? 128)%N.

(** The characters [\ ^ $ . [ ] | ( ) ? * + { }]. *)
Definition is_meta (c : ascii) : bool :=
  existsb (Ascii.eqb c) (list_ascii_of_string "\^$.[]|()?*+{}").

Definition parse_atom (c : ascii) : option atom :=
  if Ascii.eqb c "."%char then Some Dot
  else if is_meta c || negb (is_ascii c) then None
  else Some (Lit c).

Fixpoint parse_body (s : list ascii) : option (list piece) :=
  match s with
  | [] => Some []
  | c :: s' =>
      match parse_atom c with
      | None => None
      | Some a =>
          match s' with
          | c' :: s'' =>
              if Ascii.eqb c' "*"%char
              then option_map (cons (Star a)) (parse_body s'')
              else option_map (cons (One a)) (parse_body s')
          | [] => Some [One a]
          end
      end
  end.

Definition parse (pattern : string) : option (list piece) :=
  match list_ascii_of_string pattern with
  | c :: rest =>
      if Ascii.eqb c "^"%char then
        match rev rest with
        | d :: rbody =>
            if Ascii.eqb d "$"%char then parse_body (rev rbody) else None
        | [] => None
        end
      else None
  | [] => None
  end.

Definition atom_match (caseless : bool) (a : atom) (c : ascii) : bool :=
  match a with
  | Lit l => if caseless then Ascii.eqb (lower l) (lower c) else Ascii.eqb l c
  | Dot => negb (Ascii.eqb c LF)
  end.

Definition at_end (s : list ascii) : bool :=
  match s with
  | [] => true
  | [c] => Ascii.eqb c LF
  | _ => false
  end.

Fixpoint match_pieces (caseless : bool) (ps : list piece) (s : list ascii)
  : bool :=
  match ps with
  | [] => at_end s
  | One a :: ps' =>
      match s with
      | c :: s' => atom_match caseless a c && match_pieces caseless ps' s'
      | [] => false
      end
  | Star a :: ps' =>
      (fix star (s : list ascii) : bool :=
         match_pieces caseless ps' s
         || match s with
            | c :: s' => atom_match caseless a c && star s'
            | [] => false
            end) s
  end.

Definition parse_options (options : string) : option bool :=
  if String.eqb options "" then Some false
  else if String.eqb options "i" then Some true
  else None.

(** Does [subject] satisfy [{"$regex": pattern, "$options": options}]? *)
Definition search (pattern options subject : string) : option bool :=
  match parse pattern, parse_options options with
  | Some ps, Some caseless =>
      let s := list_ascii_of_string subject in
      if forallb is_ascii s then Some (match_pieces caseless ps s) else None
  | _, _ => None
  end.

End Regex.

(* ================================================================= *)
(** ** The document store *)

Module Database.

(** Modelled from the spec: database.py ([db], [create_document],
    [get_documents]) is not among the sources.  The store holds, for each
    of the five collection names, the sequence of documents written to it;
    a document is the payload plus a store-assigned identifier.  [insert]
    assigns a new identifier, persists the document and returns the
    identifier; [findMany] returns all matches; [findOne] returns the first
    match or absence.  No uniqueness is enforced. *)
Record Document (A : Type) := mkDocument {
  _id : Bson.ObjectId;
  fields : A
}.
Arguments mkDocument {A}.
Arguments _id {A}.
Arguments fields {A}.

(** The collection names, indexed by the schema of their documents. *)
Inductive collection : Type -> Type :=
| product : collection Product
| review : collection Review
| order : collection Order
| newsletter : collection Newsletter
| contactmessage : collection ContactMessage.

Record t := mk {
  products : list (Document Product);
  reviews : list (Document Review);
  orders : list (Document Order);
  newsletters : list (Document Newsletter);
  contactmessages : list (Document ContactMessage);
  next_id : Bson.ObjectId
}.

(** [db[name]] *)
Definition get {A} (c : collection A) (db : t) : list (Document A) :=
  match c in collection A return list (Document A) with
  | product => products db
  | review => reviews db
  | order => orders db
  | newsletter => newsletters db
  | contactmessage => contactmessages db
  end.

Definition set {A} (c : collection A) (l : list (Document A)) (db : t) : t :=
  match c in collection A return list (Document A) -> t with
  | product => fun l =>
      mk l (reviews db) (orders db) (newsletters db) (contactmessages db)
         (next_id db)
  | review => fun l =>
      mk (products db) l (orders db) (newsletters db) (contactmessages db)
         (next_id db)
  | order => fun l =>
      mk (products db) (reviews db) l (newsletters db) (contactmessages db)
         (next_id db)
  | newsletter => fun l =>
      mk (products db) (reviews db) (orders db) l (contactmessages db)
         (next_id db)
  | contactmessage => fun l =>
      mk (products db) (reviews db) (orders db) (newsletters db) l
         (next_id db)
  end l.

Definition bump (db : t) : t :=
  mk (products db) (reviews db) (orders db) (newsletters db)
     (contactmessages db) (N.succ (next_id db)).

Definition insert_one {A} (c : collection A) (data : A) (db : t)
  : Bson.ObjectId * t :=
  let id := next_id db in
  (id, bump (set c (get c db ++ [mkDocument id data]) db)).

Definition empty : t := mk [] [] [] [] [] 0%N.

End Database.

Import Database (Document, mkDocument, _id, fields).

(* ================================================================= *)
(** ** Handlers run in a state and exception monad over the store *)

Inductive Exception :=
| HTTPException (status_code : Z) (detail : string)
| OverflowError   (** [float * int] with an [int] too large for a [float] *)
| NotModelled.    (** a [$regex] outside the fragment of [Regex] *)

Definition M (A : Type) : Type :=
  Database.t -> (Exception + A) * Database.t.

Definition ret {A} (a : A) : M A := fun db => (inr a, db).

Definition raise {A} (e : Exception) : M A := fun db => (inl e, db).

Definition bind {A B} (m : M A) (k : A -> M B) : M B :=
  fun db =>
    match m db with
    | (inr a, db') => k a db'
    | (inl e, db') => (inl e, db')
    end.

Notation "x <- m ;; k" := (bind m (fun x => k))
  (at level 61, m at next level, right associativity).

(** The store after running a handler. *)
Definition exec {A} (m : M A) (db : Database.t) : Database.t := snd (m db).

(** *** The gateway of database.py *)

(** [db[c].find_one(filter)] *)
Definition find_one {A} (c : Database.collection A) (flt : A -> bool)
  : M (option (Document A)) :=
  fun db => (inr (find (fun d => flt (fields d)) (Database.get c db)), db).

Fixpoint find_many {A} (flt : A -> option bool) (docs : list (Document A))
  : option (list (Document A)) :=
  match docs with
  | [] => Some []
  | d :: docs' =>
      match flt (fields d), find_many flt docs' with
      | Some true, Some r => Some (d :: r)
      | Some false, Some r => Some r
      | _, _ => None
      end
  end.

(** [get_documents(c, filter)] *)
Definition get_documents {A} (c : Database.collection A)
  (flt : A -> option bool) : M (list (Document A)) :=
  fun db =>
    match find_many flt (Database.get c db) with
    | Some r => (inr r, db)
    | None => (inl NotModelled, db)
    end.

(** [create_document(c, data)]: the wire form of the new identifier. *)
Definition create_document {A} (c : Database.collection A) (data : A)
  : M string :=
  fun db =>
    let (id, db') := Database.insert_one c data db in
    (inr (Bson.str id), db').

(** *** Response payloads *)

Inductive value :=
| Str (s : string)
| Int (n : Z).

(** A response payload: a flat JSON object, as a list of members. *)
Definition json := list (string * value).

(** [body.get(key)] *)
Fixpoint member (key : string) (body : json) : option value :=
  match body with
  | [] => None
  | (k, v) :: rest => if String.eqb k key then Some v else member key rest
  end.

(** [key in body] *)
Definition has_field (key : string) (body : json) : bool :=
  match member key body with Some _ => true | None => false end.

(** *** Helpers *)

Definition oid (id_str : string) : M Bson.ObjectId :=
  match Bson.parse id_str with
  | Some o => ret o
  | None => raise (HTTPException 400 "Invalid id")
  end.

(** *** Products *)

(** The filter [q] of [list_products]: its two optional keys. *)
Record Query := mkQuery {
  q_category : option (string * string);   (** [$regex], [$options] *)
  q_is_featured : option bool
}.

Definition matches (q : Query) (p : Product) : option bool :=
  match
    match q_category q with
    | Some (pattern, options) =>
        Regex.search pattern options (Product.category p)
    | None => Some true
    end
  with
  | Some b =>
      Some (b && match q_is_featured q with
                 | Some f => Bool.eqb (Product.is_featured p) f
                 | None => true
                 end)
  | None => None
  end.

Definition list_products (category : option string) (featured : option bool)
  : M (list Product) :=
  let q := mkQuery None None in
  let q :=
    match category with
    | Some c =>
        if Py.truthy c
        then mkQuery (Some ("^" ++ c ++ "$", "i")) (q_is_featured q)
        else q
    | None => q
    end in
  let q :=
    match featured with
    | Some f => mkQuery (q_category q) (Some f)
    | None => q
    end in
  docs <- get_documents Database.product (matches q) ;;
  ret (map fields docs).

Definition slug_is (slug : string) (p : Product) : bool :=
  String.eqb (Product.slug p) slug.

Definition create_product (product : Product) : M json :=
  existing <- find_one Database.product (slug_is (Product.slug product)) ;;
  match existing with
  | Some _ => raise (HTTPException 400 "Slug already exists")
  | None =>
      insert_id <- create_document Database.product product ;;
      ret [("id", Str insert_id)]
  end.

Definition get_product (slug : string) : M (string * Product) :=
  doc <- find_one Database.product (slug_is slug) ;;
  match doc with
  | None => raise (HTTPException 404 "Product not found")
  | Some d => ret (Bson.str (_id d), fields d)
  end.

(** *** Reviews *)

Definition get_reviews (product_id : string) : M (list (string * Review)) :=
  reviews <- get_documents Database.review
               (fun r => Some (String.eqb (Review.product_id r) product_id)) ;;
  ret (map (fun r => (Bson.str (_id r), fields r)) reviews).

Definition add_review (product_id : string) (review : Review) : M json :=
  if negb (String.eqb (Review.product_id review) product_id)
  then raise (HTTPException 400 "Mismatched product_id")
  else
    rid <- create_document Database.review review ;;
    ret [("id", Str rid)].

(** *** Orders *)

(** [i.price * i.quantity] *)
Definition line_total (i : OrderItem) : option float :=
  option_map (PrimFloat.mul (OrderItem.price i))
             (Py.float_of_int (OrderItem.quantity i)).

(** [sum(...)] continued from the accumulator [acc]; [None] when a term
    raises. *)
Fixpoint sum_from (acc : float) (items : list OrderItem) : option float :=
  match items with
  | [] => Some acc
  | i :: items' =>
      match line_total i with
      | Some x => sum_from (acc + x)%float items'
      | None => None
      end
  end.

(** [sum(i.price * i.quantity for i in order.items)]: binary64 additions
    from the left, starting at 0, which is what [sum] means for floats (an
    interpreter may add a compensation term on lists of several floats; on
    an empty or one-item list there is none). *)
Definition calc_subtotal (order : Order) : option float :=
  sum_from 0%float (Order.items order).

Definition subtotal_mismatch (calc : float) (order : Order) : bool :=
  Py.gt (abs (calc - Order.subtotal order)) 0.01%float.

Definition total_mismatch (order : Order) : bool :=
  Py.gt (abs (Order.subtotal order + Order.shipping_cost order
              - Order.total order)) 0.01%float.

Definition create_order (order : Order) : M json :=
  match calc_subtotal order with
  | None => raise OverflowError
  | Some calc =>
      if subtotal_mismatch calc order
      then raise (HTTPException 400 "Subtotal mismatch")
      else if total_mismatch order
      then raise (HTTPException 400 "Total mismatch")
      else
        oid_str <- create_document Database.order order ;;
        ret [("id", Str oid_str); ("status", Str "received")]
  end.

(** *** Newsletter *)

Definition email_is (email : string) (n : Newsletter) : bool :=
  String.eqb (Newsletter.email n) email.

Definition subscribe (news : Newsletter) : M json :=
  existing <- find_one Database.newsletter (email_is (Newsletter.email news)) ;;
  match existing with
  | Some _ => ret [("status", Str "already_subscribed")]
  | None =>
      nid <- create_document Database.newsletter news ;;
      ret [("status", Str "subscribed"); ("id", Str nid)]
  end.

(** *** Contact *)

Definition contact (msg : ContactMessage) : M json :=
  cid <- create_document Database.contactmessage msg ;;
  ret [("status", Str "received"); ("id", Str cid)].

(** *** Seed sample data *)

Definition sizes_39_45 : list Z := [39; 40; 41; 42; 43; 44; 45].

Definition samples : list Product := [
  Product.mk
    "Cap-Toe Oxford in Nero"
    "cap-toe-oxford-nero"
    "Handmade cap-toe Oxford crafted in premium full-grain calfskin. Goodyear welted for longevity and comfort."
    (Some "Handmade cap-toe Oxford in black calfskin")
    495%float
    "formal"
    ["nero"; "ebony"]
    sizes_39_45
    ["https://images.unsplash.com/photo-1541099649105-f69ad21f3246?q=80&w=1200&auto=format&fit=crop";
     "https://images.unsplash.com/photo-1593032457861-1f1f86c52a3e?q=80&w=1200&auto=format&fit=crop"]
    (Some "Full-grain calfskin")
    (Some "Goodyear welt • Hand-burnished")
    true;
  Product.mk
    "Handstitched Loafer in Chestnut"
    "handstitched-loafer-chestnut"
    "Classic penny loafer with meticulous hand-stitching and cushioned insole for all-day ease."
    (Some "Handstitched chestnut loafer")
    425%float
    "casual"
    ["chestnut"; "mahogany"]
    sizes_39_45
    ["https://images.unsplash.com/photo-1598866594230-a7c12756260f?q=80&w=1200&auto=format&fit=crop";
     "https://images.unsplash.com/photo-1560365163-3e8d64e762ef?q=80&w=1200&auto=format&fit=crop"]
    (Some "Antiqued calf")
    (Some "Hand-stitched apron • Blake construction")
    true;
  Product.mk
    "Wholecut in Espresso"
    "wholecut-espresso"
    "Sculpted from a single piece of leather. Minimal seams, maximal elegance."
    (Some "Wholecut in deep espresso")
    545%float
    "formal"
    ["espresso"]
    sizes_39_45
    ["https://images.unsplash.com/photo-1520975682031-c5815e43a916?q=80&w=1200&auto=format&fit=crop"]
    (Some "Museum calf")
    (Some "Hand-dyed patina • Goodyear welt")
    false
].

(** The [for p in samples] loop, with the running value of [created]. *)
Fixpoint seed_loop (ps : list Product) (created : Z) : M Z :=
  match ps with
  | [] => ret created
  | p :: ps' =>
      existing <- find_one Database.product (slug_is (Product.slug p)) ;;
      match existing with
      | None =>
          _ <- create_document Database.product p ;;
          seed_loop ps' (created + 1)
      | Some _ => seed_loop ps' created
      end
  end.

Definition seed : M json :=
  created <- seed_loop samples 0 ;;
  ret [("seeded", Int created)].

(** *** Routes: the status code of each decorator *)

Inductive Response :=
| JSONResponse (status_code : Z) (content : json)
| ServerError.   (** an exception other than [HTTPException]: status 500 *)

Definition respond (status_code : Z) (r : Exception + json) : Response :=
  match r with
  | inr body => JSONResponse status_code body
  | inl (HTTPException code detail) => JSONResponse code [("detail", Str detail)]
  | inl _ => ServerError
  end.

Definition route (status_code : Z) (handler : M json) (db : Database.t)
  : Response * Database.t :=
  let (r, db') := handler db in (respond status_code r, db').

Definition POST_api_products (product : Product) :=
  route 201 (create_product product).
Definition POST_api_products_reviews (product_id : string) (review : Review) :=
  route 201 (add_review product_id review).
Definition POST_api_orders (order : Order) := route 201 (create_order order).
Definition POST_api_newsletter (news : Newsletter) := route 201 (subscribe news).
Definition POST_api_contact (msg : ContactMessage) := route 201 (contact msg).
Definition POST_api_seed := route 200 seed.

(** Every operation on the store, and the store it leaves behind. *)
Inductive Request :=
| ListProducts (category : option string) (featured : option bool)
| CreateProduct (product : Product)
| GetProduct (slug : string)
| GetReviews (product_id : string)
| AddReview (product_id : string) (review : Review)
| CreateOrder (order : Order)
| Subscribe (news : Newsletter)
| Contact (msg : ContactMessage)
| Seed.

Definition handle (req : Request) (db : Database.t) : Database.t :=
  match req with
  | ListProducts category featured => exec (list_products category featured) db
  | CreateProduct product => exec (create_product product) db
  | GetProduct slug => exec (get_product slug) db
  | GetReviews product_id => exec (get_reviews product_id) db
  | AddReview product_id review => exec (add_review product_id review) db
  | CreateOrder order => exec (create_order order) db
  | Subscribe news => exec (subscribe news) db
  | Contact msg => exec (contact msg) db
  | Seed => exec seed db
  end.

(* ================================================================= *)
(** ** Health check *)

Module Health.

(** What the probes of [test_database] can observe. *)
Record Handle := mkHandle {
  (** [db.list_collection_names()]: the names, or [str(e)] of the
      exception it raised. *)
  list_collection_names : string + list string
}.

Record Environ := mkEnviron {
  db : option Handle;                 (** [None]: [db is None] *)
  DATABASE_URL : option string;       (** [os.getenv] *)
  DATABASE_NAME : option string
}.

(** The [response] dict. *)
Record Report := mkReport {
  backend : string;
  database : string;
  database_url : option string;
  database_name : option string;
  connection_status : string;
  collections : list string
}.

(** Statements that update [response] and may raise [Exception(msg)]. *)
Definition Stmt (A : Type) : Type := Report -> (string + A) * Report.

Definition pass : Stmt unit := fun r => (inr tt, r).

Definition seq {A B} (s1 : Stmt A) (s2 : A -> Stmt B) : Stmt B :=
  fun r =>
    match s1 r with
    | (inr a, r') => s2 a r'
    | (inl e, r') => (inl e, r')
    end.

(** [try: body except Exception as e: handler] *)
Definition try_except {A} (body : Stmt A) (handler : string -> Stmt A)
  : Stmt A :=
  fun r =>
    match body r with
    | (inl e, r') => handler e r'
    | ok => ok
    end.

(** A call whose outcome is given. *)
Definition call {A} (outcome : string + A) : Stmt A := fun r => (outcome, r).

Definition set_database (v : string) : Stmt unit := fun r =>
  (inr tt, mkReport (backend r) v (database_url r) (database_name r)
                    (connection_status r) (collections r)).
Definition set_database_url (v : string) : Stmt unit := fun r =>
  (inr tt, mkReport (backend r) (database r) (Some v) (database_name r)
                    (connection_status r) (collections r)).
Definition set_database_name (v : string) : Stmt unit := fun r =>
  (inr tt, mkReport (backend r) (database r) (database_url r) (Some v)
                    (connection_status r) (collections r)).
Definition set_connection_status (v : string) : Stmt unit := fun r =>
  (inr tt, mkReport (backend r) (database r) (database_url r)
                    (database_name r) v (collections r)).
Definition set_collections (v : list string) : Stmt unit := fun r =>
  (inr tt, mkReport (backend r) (database r) (database_url r)
                    (database_name r) (connection_status r) v).

Definition is_set (v : option string) : string :=
  match v with
  | Some s => if Py.truthy s then "✅ Set" else "❌ Not Set"
  | None => "❌ Not Set"
  end.

Definition initial : Report :=
  mkReport "✅ Running" "❌ Not Available" None None "Not Connected" [].

Definition body (env : Environ) : Stmt unit :=
  try_except
    (match db env with
     | Some h =>
         seq (set_database "✅ Available") (fun _ =>
         seq (set_database_url (is_set (DATABASE_URL env))) (fun _ =>
         seq (set_database_name (is_set (DATABASE_NAME env))) (fun _ =>
         try_except
           (seq (call (list_collection_names h)) (fun collections =>
            seq (set_collections (firstn 10 collections)) (fun _ =>
            seq (set_database "✅ Connected & Working") (fun _ =>
            set_connection_status "Connected"))))
           (fun e =>
              set_database ("⚠️  Connected but Error: " ++ Py.take 50 e)))))
     | None => set_database "⚠️  Available but not initialized"
     end)
    (fun e => set_database ("❌ Error: " ++ Py.take 50 e)).

(** [test_database()]: [inl] were it to raise, [inr] the returned report. *)
Definition test_database (env : Environ) : string + Report :=
  match body env initial with
  | (inr _, response) => inr response
  | (inl e, _) => inl e
  end.

End Health.

(* ================================================================= *)
(** ** Named responses and sample inputs *)

Definition error (status_code : Z) (detail : string) : Response :=
  JSONResponse status_code [("detail", Str detail)].

Definition SlugConflict : Response := error 400 "Slug already exists".
Definition MismatchedReference : Response := error 400 "Mismatched product_id".
Definition SubtotalMismatch : Response := error 400 "Subtotal mismatch".
Definition TotalMismatch : Response := error 400 "Total mismatch".

(** The wire identifier the next insert into [db] returns. *)
Definition fresh_id (db : Database.t) : string :=
  Bson.str (Database.next_id db).

(** The response of an accepted order. *)
Definition order_received (db : Database.t) : Response :=
  JSONResponse 201 [("id", Str (fresh_id db)); ("status", Str "received")].

(** The store after one insert of [data] into collection [c]. *)
Definition inserted {A} (c : Database.collection A) (data : A)
  (db : Database.t) : Database.t :=
  snd (Database.insert_one c data db).

Definition slugs (db : Database.t) : list string :=
  map (fun d => Product.slug (fields d)) (Database.products db).

Definition emails (db : Database.t) : list string :=
  map (fun d => Newsletter.email (fields d)) (Database.newsletters db).

(** [s.lower()] on ASCII letters. *)
Fixpoint lower_string (s : string) : string :=
  match s with
  | EmptyString => EmptyString
  | String c s' => String (Regex.lower c) (lower_string s')
  end.

(** Strings equal up to ASCII letter case. *)
Definition eqb_nocase (s1 s2 : string) : bool :=
  String.eqb (lower_string s1) (lower_string s2).

(** Is there a Product with this slug? *)
Definition slug_exists (slug : string) (db : Database.t) : bool :=
  existsb (fun d => slug_is slug (fields d)) (Database.products db).

(** The store after inserting the Products [ps], in order. *)
Definition insert_products (ps : list Product) (db : Database.t)
  : Database.t :=
  fold_left (fun db p => inserted Database.product p db) ps db.

(** The Products among [ps] that a run of the seed loop inserts: those
    whose slug is absent when their turn comes. *)
Fixpoint seed_plan (ps : list Product) (db : Database.t) : list Product :=
  match ps with
  | [] => []
  | p :: ps' =>
      if slug_exists (Product.slug p) db then seed_plan ps' db
      else p :: seed_plan ps' (inserted Database.product p db)
  end.

(** The canned Products whose slug is absent from [db]. *)
Definition absent_samples (db : Database.t) : list Product :=
  filter (fun p => negb (slug_exists (Product.slug p) db)) samples.

(** A category string without regular-expression metacharacters: ASCII
    characters other than [\ ^ $ . [ ] | ( ) ? * + { }]. *)
Definition plain (s : string) : bool :=
  forallb (fun c => Regex.is_ascii c && negb (Regex.is_meta c))
          (list_ascii_of_string s).

(** An ASCII string without line feeds. *)
Definition single_line (s : string) : bool :=
  forallb (fun c => Regex.is_ascii c && negb (Ascii.eqb c Regex.LF))
          (list_ascii_of_string s).

(** The [is_featured] key of the filter, when [featured] is given. *)
Definition featured_is (featured : option bool) (p : Product) : bool :=
  match featured with
  | Some f => Bool.eqb (Product.is_featured p) f
  | None => true
  end.

Module Sample.

Definition address : Address :=
  Address.mk "Ada Lovelace" "ada@example.com" None "12 St James Square"
             None "London" "London" "UK" "SW1Y 4JH".

Definition item (price : float) (quantity : Z) : OrderItem :=
  OrderItem.mk "abc" "Wholecut in Espresso" price 42 "espresso" quantity.

Definition order (items : list OrderItem)
  (subtotal shipping_cost total : float) : Order :=
  Order.mk items address subtotal shipping_cost total "pending".

Definition review (product_id : string) : Review :=
  Review.mk product_id "Ada" 5 "Superb" None.

Definition product (slug category : string) : Product :=
  Product.mk "Derby" slug "A plain derby." None 300%float category [] [] []
             None None false.

Definition news : Newsletter := Newsletter.mk "ada@example.com".

End Sample.

(* ================================================================= *)
(** ** Notions used by the further properties *)

(** [db'] holds every document of [db], each in its place, and maybe more
    after them. *)
Definition extends (db db' : Database.t) : Prop :=
  (exists l, Database.products db' = (Database.products db ++ l)%list) /\
  (exists l, Database.reviews db' = (Database.reviews db ++ l)%list) /\
  (exists l, Database.orders db' = (Database.orders db ++ l)%list) /\
  (exists l, Database.newsletters db' = (Database.newsletters db ++ l)%list) /\
  (exists l, Database.contactmessages db'
             = (Database.contactmessages db ++ l)%list).

(** What [create_order] reads of an order: the price and quantity of each
    item, and the three stated amounts. *)
Definition amounts (order : Order) : list (float * Z) * float * float * float :=
  (map (fun i => (OrderItem.price i, OrderItem.quantity i))
       (Order.items order),
   Order.subtotal order, Order.shipping_cost order, Order.total order).

(** The requests that only read. *)
Definition is_read (req : Request) : bool :=
  match req with
  | ListProducts _ _ | GetProduct _ | GetReviews _ => true
  | _ => false
  end.

(** The reviews stored for a product id, as [get_reviews] returns them. *)
Definition reviews_of (product_id : string) (db : Database.t)
  : list (string * Review) :=
  map (fun r => (Bson.str (_id r), fields r))
      (filter (fun r => String.eqb (Review.product_id (fields r)) product_id)
              (Database.reviews db)).

(* ================================================================= *)
(** * Properties *)

(** ** Facts about binary64 comparison *)

Section FloatFacts.

Lemma SFcompare_antisym (x y : spec_float) :
  SFcompare y x = option_map CompOpp (SFcompare x y).
Proof.
  destruct x as [sx| sx| |sx mx ex], y as [sy| sy| |sy my ey]; simpl;
    try reflexivity;
    try (destruct sx; reflexivity);
    try (destruct sy; reflexivity);
    try (destruct sx, sy; reflexivity).
  destruct sx, sy; try reflexivity;
    rewrite (Z.compare_antisym ex ey);
    destruct (ex ?= ey) eqn:E; simpl; try reflexivity;
    pose proof (Pos.compare_cont_antisym mx my Eq) as A; simpl in A;
    rewrite <- A; destruct (Pos.compare_cont Eq mx my); reflexivity.
Qed.

Lemma SFcompare_refl (x : spec_float) :
  SFcompare x x = match x with S754_nan => None | _ => Some Eq end.
Proof.
  destruct x as [s| s| |s m e]; simpl; try reflexivity.
  - destruct s; reflexivity.
  - rewrite Z.compare_refl.
    change (Pos.compare_cont Eq m m) with (Pos.compare m m).
    rewrite Pos.compare_refl. destruct s; reflexivity.
Qed.

Lemma SFcompare_finite_None (x : spec_float) s m e :
  SFcompare x (S754_finite s m e) = None <-> x = S754_nan.
Proof.
  destruct x as [sx| sx| |sx mx ex]; unfold SFcompare;
    split; intros H; try discriminate; try reflexivity.
Qed.

(** [x > y] is false exactly when [x <= y] or the two do not compare. *)
Lemma gt_false_iff (x y : float) :
  Py.gt x y = false <->
  (x <=? y)%float = true \/ SFcompare (Prim2SF x) (Prim2SF y) = None.
Proof.
  unfold Py.gt. rewrite ltb_spec, leb_spec. unfold SFltb, SFleb.
  rewrite (SFcompare_antisym (Prim2SF x) (Prim2SF y)).
  destruct (SFcompare (Prim2SF x) (Prim2SF y)) as [[ | | ]|]; simpl;
    split; intros H; auto; try discriminate;
    destruct H; discriminate.
Qed.

Lemma is_nan_spec (x : float) :
  is_nan x = true <-> Prim2SF x = S754_nan.
Proof.
  unfold is_nan. rewrite eqb_spec. unfold SFeqb.
  rewrite SFcompare_refl.
  destruct (Prim2SF x); simpl; split; intros H; congruence.
Qed.

Lemma Prim2SF_tolerance :
  Prim2SF 0.01%float = S754_finite false 5764607523034235 (-59).
Proof. vm_compute. reflexivity. Qed.

(** The tolerance test of [create_order]: not above 0.01 means at most
    0.01, boundary included, or not a number. *)
Lemma not_gt_tolerance (d : float) :
  Py.gt d 0.01%float = false <->
  (d <=? 0.01)%float = true \/ is_nan d = true.
Proof.
  rewrite gt_false_iff, is_nan_spec, Prim2SF_tolerance,
    SFcompare_finite_None.
  reflexivity.
Qed.

End FloatFacts.

(* ================================================================= *)
(** ** Create order *)

(** The three outcomes of [create_order], by the two tests. *)
Lemma create_order_cases (order : Order) (db : Database.t) (calc : float) :
  calc_subtotal order = Some calc ->
  POST_api_orders order db =
    if Py.gt (abs (calc - Order.subtotal order)) 0.01
    then (SubtotalMismatch, db)
    else if Py.gt (abs (Order.subtotal order + Order.shipping_cost order
                        - Order.total order)) 0.01
    then (TotalMismatch, db)
    else (order_received db, inserted Database.order order db).
Proof.
  intros Hcalc.
  unfold POST_api_orders, route, create_order.
  rewrite Hcalc.
  unfold subtotal_mismatch, total_mismatch.
  destruct (Py.gt _ 0.01); [reflexivity|].
  destruct (Py.gt _ 0.01); reflexivity.
Qed.

(** A line total that cannot be computed is an unhandled exception. *)
Lemma create_order_overflow (order : Order) (db : Database.t) :
  calc_subtotal order = None ->
  POST_api_orders order db = (ServerError, db).
Proof.
  intros Hcalc. unfold POST_api_orders, route, create_order.
  rewrite Hcalc. reflexivity.
Qed.

Lemma create_order_accepts (order : Order) (db : Database.t) (calc : float) :
  calc_subtotal order = Some calc ->
  Py.gt (abs (calc - Order.subtotal order)) 0.01 = false ->
  Py.gt (abs (Order.subtotal order + Order.shipping_cost order
              - Order.total order)) 0.01 = false ->
  POST_api_orders order db =
    (order_received db, inserted Database.order order db).
Proof.
  intros Hcalc Hsub Htot.
  rewrite (create_order_cases order db calc Hcalc), Hsub, Htot.
  reflexivity.
Qed.

Lemma responses_distinct (db : Database.t) :
  SubtotalMismatch <> TotalMismatch /\
  SubtotalMismatch <> order_received db /\
  TotalMismatch <> order_received db.
Proof. repeat split; discriminate. Qed.

(** C1 (as the code has it). When every line total is computed, create order
    answers SubtotalMismatch exactly when the binary64 value of
    |sum - subtotal| is greater than 0.01, otherwise TotalMismatch exactly
    when the binary64 value of |subtotal + shipping_cost - total| is greater
    than 0.01, and otherwise accepts; when both computed differences are
    numbers it accepts exactly when each is at most 0.01, the boundary
    included.  The order items=[{price:100, quantity:2}], subtotal=200,
    shipping_cost=10, total=210 is accepted, and so are the same order with
    subtotal=199.99 and the same order with total=209.99. *)
Theorem create_order_tolerance
  (order : Order) (db : Database.t) (calc : float) :
  calc_subtotal order = Some calc ->
  let d_sub := abs (calc - Order.subtotal order) in
  let d_tot :=
    abs (Order.subtotal order + Order.shipping_cost order
         - Order.total order) in
  let response := fst (POST_api_orders order db) in
  (response = SubtotalMismatch <-> (0.01 <? d_sub)%float = true) /\
  (response = TotalMismatch <->
     (0.01 <? d_sub)%float = false /\ (0.01 <? d_tot)%float = true) /\
  (response = order_received db <->
     (0.01 <? d_sub)%float = false /\ (0.01 <? d_tot)%float = false) /\
  (is_nan d_sub = false -> is_nan d_tot = false ->
   (response = order_received db <->
      (d_sub <=? 0.01)%float = true /\ (d_tot <=? 0.01)%float = true)) /\
  fst (POST_api_orders (Sample.order [Sample.item 100 2] 200 10 210) db)
    = order_received db /\
  fst (POST_api_orders (Sample.order [Sample.item 100 2] 199.99 10 210) db)
    = order_received db /\
  fst (POST_api_orders (Sample.order [Sample.item 100 2] 200 10 209.99) db)
    = order_received db.
Proof.
  intros Hcalc d_sub d_tot response.
  destruct (responses_distinct db) as (Hst & Hsr & Htr).
  assert (Hresp : response =
            if Py.gt d_sub 0.01 then SubtotalMismatch
            else if Py.gt d_tot 0.01 then TotalMismatch
            else order_received db).
  { unfold response. rewrite (create_order_cases order db calc Hcalc).
    fold d_sub d_tot.
    destruct (Py.gt d_sub 0.01); [reflexivity|].
    destruct (Py.gt d_tot 0.01); reflexivity. }
  assert (Hacc : response = order_received db <->
                 Py.gt d_sub 0.01 = false /\ Py.gt d_tot 0.01 = false).
  { rewrite Hresp. destruct (Py.gt d_sub 0.01).
    - split; [intros H; congruence | intros [H _]; discriminate].
    - destruct (Py.gt d_tot 0.01); [|tauto].
      split; [intros H; congruence | intros [_ H]; discriminate]. }
  change (0.01 <? d_sub)%float with (Py.gt d_sub 0.01).
  change (0.01 <? d_tot)%float with (Py.gt d_tot 0.01).
  split; [|split; [|split; [|split]]].
  - rewrite Hresp. destruct (Py.gt d_sub 0.01); [tauto|].
    destruct (Py.gt d_tot 0.01); split; intros H; congruence.
  - rewrite Hresp. destruct (Py.gt d_sub 0.01).
    + split; [intros H; congruence | intros [H _]; discriminate].
    + destruct (Py.gt d_tot 0.01); [tauto|].
      split; [intros H; congruence | intros [_ H]; discriminate].
  - exact Hacc.
  - intros Nsub Ntot. rewrite Hacc, !not_gt_tolerance, Nsub, Ntot.
    intuition discriminate.
  - repeat split;
      (rewrite (create_order_accepts _ db 200%float);
       [reflexivity | vm_compute; reflexivity ..]).
Qed.

(** Witness of [create_order_tolerance]: the order with subtotal=199.99. *)
Lemma create_order_tolerance_witness :
  calc_subtotal (Sample.order [Sample.item 100 2] 199.99 10 210)
    = Some 200%float /\
  (fst (POST_api_orders (Sample.order [Sample.item 100 2] 199.99 10 210)
                        Database.empty) = SubtotalMismatch
   <-> (0.01 <? abs (200 - 199.99))%float = true).
Proof.
  assert (H : calc_subtotal (Sample.order [Sample.item 100 2] 199.99 10 210)
              = Some 200%float) by (vm_compute; reflexivity).
  exact (conj H (proj1 (create_order_tolerance _ Database.empty _ H))).
Defined.

(** C1 fails as stated: the order items=[{price:100, quantity:2}],
    subtotal=199.99, shipping_cost=10, total=210 is not rejected with
    SubtotalMismatch; it is accepted with status 201. *)
Lemma create_order_199_99_accepted :
  POST_api_orders (Sample.order [Sample.item 100 2] 199.99 10 210)
                  Database.empty
  = (JSONResponse 201 [("id", Str "000000000000000000000000");
                       ("status", Str "received")],
     inserted Database.order
       (Sample.order [Sample.item 100 2] 199.99 10 210) Database.empty)
  /\ (0.01 <? abs (200 - 199.99))%float = false
  /\ (0.01 <? abs (199.99 + 10 - 210))%float = false.
Proof. repeat split; vm_compute; reflexivity. Qed.

(** A difference that is not a number passes both tests. *)
Example create_order_nan_accepted :
  fst (POST_api_orders (Sample.order [Sample.item 100 2] nan 10 210)
                       Database.empty)
  = order_received Database.empty.
Proof. vm_compute. reflexivity. Qed.

(** A decimal difference of exactly 0.01 can exceed the tolerance once
    computed in binary64: 1.01 - 1 is 0.010000000000000009. *)
Example create_order_1_01_rejected :
  fst (POST_api_orders (Sample.order [Sample.item 1.01 1] 1 0 1)
                       Database.empty)
  = SubtotalMismatch.
Proof. vm_compute. reflexivity. Qed.

(** A line total whose quantity is too large for a float is an unhandled
    exception. *)
Example create_order_overflow_example :
  fst (POST_api_orders (Sample.order [Sample.item 1 (2 ^ 1024)] 0 0 0)
                       Database.empty)
  = ServerError.
Proof. vm_compute. reflexivity. Qed.

Lemma leb_not_gt (x y : float) :
  (x <=? y)%float = true -> Py.gt x y = false.
Proof. intros H. apply gt_false_iff. left. exact H. Qed.

(** C9 (as the code has it). Create order does not require items: an order
    with items=[] passes schema validation and is accepted, one order
    document being written, whenever the binary64 value of |0 - subtotal|
    and the binary64 value of |subtotal + shipping_cost - total|, as the
    handler computes them, are at most 0.01. *)
Theorem create_order_empty_items (order : Order) (db : Database.t) :
  Order.items order = [] ->
  (abs (0 - Order.subtotal order) <=? 0.01)%float = true ->
  (abs (Order.subtotal order + Order.shipping_cost order
        - Order.total order) <=? 0.01)%float = true ->
  valid_Order order = true /\
  POST_api_orders order db
    = (order_received db, inserted Database.order order db) /\
  Database.orders (inserted Database.order order db)
    = (Database.orders db ++ [mkDocument (Database.next_id db) order])%list.
Proof.
  intros Hitems Hsub Htot.
  split; [unfold valid_Order; rewrite Hitems; reflexivity|].
  split; [|reflexivity].
  apply (create_order_accepts order db 0%float).
  - unfold calc_subtotal. rewrite Hitems. reflexivity.
  - apply leb_not_gt, Hsub.
  - apply leb_not_gt, Htot.
Qed.

(** Witness of [create_order_empty_items]: items=[], subtotal=0.01,
    shipping_cost=5, total=5. *)
Lemma create_order_empty_items_witness :
  POST_api_orders (Sample.order [] 0.01 5 5) Database.empty
  = (order_received Database.empty,
     inserted Database.order (Sample.order [] 0.01 5 5) Database.empty).
Proof.
  refine (proj1 (proj2 (create_order_empty_items
                          (Sample.order [] 0.01 5 5) Database.empty
                          eq_refl _ _)));
    vm_compute; reflexivity.
Defined.

(** C9 fails as stated: with items=[], subtotal=0.01, shipping_cost=1,
    total=1 the stated subtotal is within 0.01 of 0 and the stated total is
    0.01 away from subtotal + shipping_cost, yet the computed difference
    0.01 + 1 - 1 is 0.010000000000000009 and the order is rejected with
    TotalMismatch, nothing being written. *)
Lemma create_order_empty_items_rounding :
  POST_api_orders (Sample.order [] 0.01 1 1) Database.empty
    = (TotalMismatch, Database.empty) /\
  (abs (0 - 0.01) <=? 0.01)%float = true /\
  abs (0.01 + 1 - 1)%float = 0.010000000000000009%float /\
  (0.01 <? abs (0.01 + 1 - 1))%float = true.
Proof. repeat split; vm_compute; reflexivity. Qed.

(** C10. Once the subtotal test has passed, the total test compares the
    stated total with the stated subtotal plus shipping_cost; the recomputed
    item sum plays no part.  So an order is accepted whose total differs
    from the item sum plus shipping_cost by 0.02, which is more than the
    tolerance: items=[{price:0.02, quantity:1}], subtotal=0.01,
    shipping_cost=0, total=0. *)
Theorem total_check_uses_stated_subtotal :
  (forall (order : Order) (db : Database.t) (calc : float),
     calc_subtotal order = Some calc ->
     (0.01 <? abs (calc - Order.subtotal order))%float = false ->
     (fst (POST_api_orders order db) = TotalMismatch <->
      (0.01 <? abs (Order.subtotal order + Order.shipping_cost order
                    - Order.total order))%float = true)) /\
  (exists (order : Order) (calc : float),
     Order.items order <> [] /\
     valid_Order order = true /\
     calc_subtotal order = Some calc /\
     fst (POST_api_orders order Database.empty)
       = order_received Database.empty /\
     abs (calc + Order.shipping_cost order - Order.total order) = 0.02%float /\
     (0.01 <? abs (calc + Order.shipping_cost order
                   - Order.total order))%float = true).
Proof.
  split.
  - intros order db calc Hcalc Hsub.
    rewrite (create_order_cases order db calc Hcalc).
    change (Py.gt (abs (calc - Order.subtotal order)) 0.01 = false) in Hsub.
    rewrite Hsub.
    change (0.01 <? ?x)%float with (Py.gt x 0.01).
    destruct (responses_distinct db) as (_ & _ & Htr).
    destruct (Py.gt (abs (Order.subtotal order + Order.shipping_cost order
                          - Order.total order)) 0.01);
      cbn [fst]; split; intros H;
      try reflexivity; try discriminate; try (symmetry in H; contradiction).
  - exists (Sample.order [Sample.item 0.02 1] 0.01 0 0), 0.02%float.
    split; [discriminate|].
    repeat split; vm_compute; reflexivity.
Qed.

(* ================================================================= *)
(** ** The gateway *)

Section Gateway.

Context {A : Type}.
Variable key : A -> string.

Lemma find_key_None (k : string) (docs : list (Document A)) :
  find (fun d => String.eqb (key (fields d)) k) docs = None <->
  ~ In k (map (fun d => key (fields d)) docs).
Proof.
  induction docs as [|d docs IH]; simpl.
  - tauto.
  - destruct (String.eqb_spec (key (fields d)) k) as [E|E].
    + split; [discriminate | intros H; exfalso; apply H; left; exact E].
    + rewrite IH. tauto.
Qed.

Lemma find_key_Some (k : string) (docs : list (Document A)) :
  In k (map (fun d => key (fields d)) docs) ->
  exists d, find (fun d => String.eqb (key (fields d)) k) docs = Some d.
Proof.
  intros Hin.
  destruct (find (fun d => String.eqb (key (fields d)) k) docs) as [d|] eqn:E.
  - exists d. reflexivity.
  - apply find_key_None in E. contradiction.
Qed.

Lemma find_many_total (f : A -> bool) (docs : list (Document A)) :
  find_many (fun a => Some (f a)) docs
  = Some (filter (fun d => f (fields d)) docs).
Proof.
  induction docs as [|d docs IH]; simpl; [reflexivity|].
  rewrite IH. destruct (f (fields d)); reflexivity.
Qed.

End Gateway.

(* ================================================================= *)
(** ** Newsletter *)

Lemma subscribe_cases (news : Newsletter) (db : Database.t) :
  POST_api_newsletter news db
  = match find (fun d => email_is (Newsletter.email news) (fields d))
               (Database.get Database.newsletter db) with
    | Some _ => (JSONResponse 201 [("status", Str "already_subscribed")], db)
    | None =>
        (JSONResponse 201 [("status", Str "subscribed");
                           ("id", Str (fresh_id db))],
         inserted Database.newsletter news db)
    end.
Proof.
  unfold POST_api_newsletter, route, subscribe, bind, find_one.
  destruct (find _ _); reflexivity.
Qed.

(** C2 (as the code has it). For every subscribe request: if no document
    with that email exists, the response has status 201 with body
    {status:"subscribed", id} and one new document is inserted; if one
    exists, the response has status 201 as well, its body is
    {status:"already_subscribed"} without an id field, and the store is left
    as it was. *)
Theorem subscribe_once (news : Newsletter) (db : Database.t) :
  (~ In (Newsletter.email news) (emails db) ->
   POST_api_newsletter news db
     = (JSONResponse 201 [("status", Str "subscribed");
                          ("id", Str (fresh_id db))],
        inserted Database.newsletter news db) /\
   Database.newsletters (inserted Database.newsletter news db)
     = (Database.newsletters db
        ++ [mkDocument (Database.next_id db) news])%list) /\
  (In (Newsletter.email news) (emails db) ->
   POST_api_newsletter news db
     = (JSONResponse 201 [("status", Str "already_subscribed")], db) /\
   has_field "id" [("status", Str "already_subscribed")] = false).
Proof.
  rewrite subscribe_cases.
  destruct (find _ _) as [d|] eqn:E; split; intros H.
  - apply (find_key_None Newsletter.email) in H.
    pose proof (eq_trans (eq_sym E) H). discriminate.
  - split; reflexivity.
  - split; reflexivity.
  - apply (find_key_Some Newsletter.email) in H. destruct H as [d H].
    pose proof (eq_trans (eq_sym E) H). discriminate.
Qed.

(** Witness of [subscribe_once]: a first subscription to the empty store. *)
Lemma subscribe_once_witness :
  POST_api_newsletter Sample.news Database.empty
  = (JSONResponse 201 [("status", Str "subscribed");
                       ("id", Str "000000000000000000000000")],
     inserted Database.newsletter Sample.news Database.empty).
Proof.
  refine (proj1 (proj1 (subscribe_once Sample.news Database.empty) _)).
  simpl. tauto.
Defined.

(** C2 fails as stated: a repeated subscription is answered with status
    201, not 200. *)
Lemma subscribe_repeat_is_201 :
  In (Newsletter.email Sample.news)
     (emails (inserted Database.newsletter Sample.news Database.empty)) /\
  POST_api_newsletter Sample.news
    (inserted Database.newsletter Sample.news Database.empty)
  = (JSONResponse 201 [("status", Str "already_subscribed")],
     inserted Database.newsletter Sample.news Database.empty).
Proof. split; [left; reflexivity | reflexivity]. Qed.

(* ================================================================= *)
(** ** Reviews and the identifier codec *)

Lemma get_reviews_total (product_id : string) (db : Database.t) :
  get_reviews product_id db
  = (inr (map (fun r => (Bson.str (_id r), fields r))
              (filter (fun r =>
                         String.eqb (Review.product_id (fields r)) product_id)
                      (Database.reviews db))),
     db).
Proof.
  unfold get_reviews, bind, get_documents. simpl.
  rewrite (find_many_total
             (fun r => String.eqb (Review.product_id r) product_id)).
  reflexivity.
Qed.

Lemma add_review_cases (product_id : string) (review : Review)
  (db : Database.t) :
  POST_api_products_reviews product_id review db
  = if String.eqb (Review.product_id review) product_id
    then (JSONResponse 201 [("id", Str (fresh_id db))],
          inserted Database.review review db)
    else (MismatchedReference, db).
Proof.
  unfold POST_api_products_reviews, route, add_review.
  destruct (String.eqb (Review.product_id review) product_id); reflexivity.
Qed.

(** C3 (as the code has it). The product_id path segment of list-reviews
    and add-review is an opaque string that no handler decodes: whether or
    not it is a valid store identifier, list-reviews returns the reviews
    whose product_id equals it and leaves the store as it was, and
    add-review with an equal payload product_id inserts the review and
    answers 201.  Decoding itself ([oid]) fails with 400 "Invalid id"
    exactly on the strings that are not valid store identifiers. *)
Theorem path_id_is_opaque (product_id : string) (db : Database.t) :
  get_reviews product_id db
    = (inr (map (fun r => (Bson.str (_id r), fields r))
                (filter (fun r =>
                           String.eqb (Review.product_id (fields r))
                                      product_id)
                        (Database.reviews db))),
       db) /\
  (forall review : Review,
     Review.product_id review = product_id ->
     POST_api_products_reviews product_id review db
       = (JSONResponse 201 [("id", Str (fresh_id db))],
          inserted Database.review review db)) /\
  (oid product_id db = (inl (HTTPException 400 "Invalid id"), db)
   <-> Bson.parse product_id = None).
Proof.
  split; [apply get_reviews_total|]. split.
  - intros review E. rewrite add_review_cases.
    rewrite (proj2 (String.eqb_eq _ _) E). reflexivity.
  - unfold oid. destruct (Bson.parse product_id) as [o|]; simpl.
    + split; discriminate.
    + split; reflexivity.
Qed.

(** C3 fails as stated: "abc" is not a valid store identifier, yet
    list-reviews and add-review accept it as path segment. *)
Lemma path_id_abc_not_decoded :
  Bson.parse "abc" = None /\
  get_reviews "abc" (inserted Database.review (Sample.review "abc")
                              Database.empty)
    = (inr [("000000000000000000000000", Sample.review "abc")],
       inserted Database.review (Sample.review "abc") Database.empty) /\
  POST_api_products_reviews "abc" (Sample.review "abc") Database.empty
    = (JSONResponse 201 [("id", Str "000000000000000000000000")],
       inserted Database.review (Sample.review "abc") Database.empty).
Proof. repeat split. Qed.

(** C5. Adding a review whose payload product_id differs from the path
    product_id is rejected with 400 MismatchedReference and the store is
    left as it was; when they are equal one review document is inserted
    and 201 {id} is returned.  Path "abc" with payload "xyz" is rejected. *)
Theorem add_review_reference (product_id : string) (review : Review)
  (db : Database.t) :
  (Review.product_id review <> product_id ->
   POST_api_products_reviews product_id review db
     = (MismatchedReference, db)) /\
  (Review.product_id review = product_id ->
   POST_api_products_reviews product_id review db
     = (JSONResponse 201 [("id", Str (fresh_id db))],
        inserted Database.review review db) /\
   Database.reviews (inserted Database.review review db)
     = (Database.reviews db
        ++ [mkDocument (Database.next_id db) review])%list) /\
  POST_api_products_reviews "abc" (Sample.review "xyz") db
    = (JSONResponse 400 [("detail", Str "Mismatched product_id")], db).
Proof.
  rewrite add_review_cases.
  split; [|split].
  - intros H. apply String.eqb_neq in H. rewrite H. reflexivity.
  - intros H. apply String.eqb_eq in H. rewrite H. split; reflexivity.
  - reflexivity.
Qed.

(** Witness of [add_review_reference]: path "abc", payload "xyz". *)
Lemma add_review_reference_witness :
  POST_api_products_reviews "abc" (Sample.review "xyz") Database.empty
  = (MismatchedReference, Database.empty).
Proof.
  refine (proj1 (add_review_reference "abc" (Sample.review "xyz")
                                      Database.empty) _).
  discriminate.
Defined.

(* ================================================================= *)
(** ** Products: slugs and seeding *)

Lemma slug_exists_In (slug : string) (db : Database.t) :
  slug_exists slug db = true <-> In slug (slugs db).
Proof.
  unfold slug_exists, slugs.
  induction (Database.products db) as [|d docs IH]; simpl.
  - split; [discriminate | tauto].
  - unfold slug_is at 1.
    destruct (String.eqb_spec (Product.slug (fields d)) slug) as [E|E]; simpl.
    + split; auto.
    + rewrite IH. split; [auto | intros [H|H]; [contradiction | exact H]].
Qed.

Lemma find_slug (slug : string) (db : Database.t) :
  find (fun d => slug_is slug (fields d)) (Database.get Database.product db)
    = None
  <-> slug_exists slug db = false.
Proof.
  unfold slug_exists. simpl.
  induction (Database.products db) as [|d docs IH]; simpl.
  - tauto.
  - destruct (slug_is slug (fields d)); simpl.
    + split; discriminate.
    + exact IH.
Qed.

Lemma slugs_inserted (p : Product) (db : Database.t) :
  slugs (inserted Database.product p db)
  = (slugs db ++ [Product.slug p])%list.
Proof. unfold slugs, inserted. simpl. rewrite map_app. reflexivity. Qed.

Lemma NoDup_snoc (l : list string) (x : string) :
  NoDup l -> ~ In x l -> NoDup (l ++ [x]).
Proof.
  intros Hl Hx. apply NoDup_app; [exact Hl | repeat constructor; tauto |].
  intros a Ha [E|[]]. subst a. contradiction.
Qed.

Lemma create_product_cases (product : Product) (db : Database.t) :
  POST_api_products product db
  = if slug_exists (Product.slug product) db
    then (SlugConflict, db)
    else (JSONResponse 201 [("id", Str (fresh_id db))],
          inserted Database.product product db).
Proof.
  unfold POST_api_products, route, create_product, bind, find_one.
  destruct (find _ _) as [d|] eqn:E.
  - destruct (slug_exists (Product.slug product) db) eqn:S;
      [reflexivity|].
    apply find_slug in S. pose proof (eq_trans (eq_sym E) S). discriminate.
  - apply find_slug in E. rewrite E. reflexivity.
Qed.

Lemma exec_create_product (product : Product) (db : Database.t) :
  exec (create_product product) db = snd (POST_api_products product db).
Proof.
  unfold exec, POST_api_products, route.
  destruct (create_product product db). reflexivity.
Qed.

(** The seed loop inserts its plan and counts it. *)
Lemma seed_loop_plan (ps : list Product) :
  forall (created : Z) (db : Database.t),
    seed_loop ps created db
    = (inr (created + Z.of_nat (List.length (seed_plan ps db))),
       insert_products (seed_plan ps db) db).
Proof.
  induction ps as [|p ps IH]; intros created db.
  - simpl. unfold ret, insert_products. simpl.
    rewrite Z.add_0_r. reflexivity.
  - cbn [seed_loop seed_plan]. unfold bind at 1. unfold find_one.
    destruct (find _ _) as [d|] eqn:E.
    + destruct (slug_exists (Product.slug p) db) eqn:S.
      * apply IH.
      * apply find_slug in S.
        pose proof (eq_trans (eq_sym E) S). discriminate.
    + apply find_slug in E. rewrite E.
      unfold bind, create_document.
      change (Database.insert_one Database.product p db)
        with (Database.next_id db, inserted Database.product p db).
      cbv iota beta. rewrite IH.
      cbn [List.length insert_products fold_left].
      f_equal. f_equal. lia.
Qed.

Lemma slug_exists_inserted (slug : string) (p : Product) (db : Database.t) :
  slug_exists slug (inserted Database.product p db)
  = slug_exists slug db || String.eqb (Product.slug p) slug.
Proof.
  unfold slug_exists, inserted. simpl.
  rewrite existsb_app. simpl. rewrite orb_false_r. reflexivity.
Qed.

(** With pairwise distinct slugs the plan is: whatever is absent at the
    start. *)
Lemma seed_plan_filter (ps : list Product) :
  NoDup (map Product.slug ps) ->
  forall db,
    seed_plan ps db
    = filter (fun p => negb (slug_exists (Product.slug p) db)) ps.
Proof.
  induction ps as [|p ps IH]; intros Hnd db; [reflexivity|].
  inversion Hnd as [|? ? Hp Hps]; subst.
  cbn [seed_plan filter].
  destruct (slug_exists (Product.slug p) db) eqn:S; cbn [negb].
  - apply IH, Hps.
  - f_equal. rewrite (IH Hps). apply filter_ext_in.
    intros q Hq. rewrite slug_exists_inserted.
    destruct (String.eqb_spec (Product.slug p) (Product.slug q)) as [E|E].
    + exfalso. apply Hp. rewrite E. apply in_map, Hq.
    + rewrite orb_false_r. reflexivity.
Qed.

Lemma samples_distinct : NoDup (map Product.slug samples).
Proof.
  repeat constructor; simpl; intuition discriminate.
Qed.

Lemma seed_cases (db : Database.t) :
  POST_api_seed db
  = (JSONResponse 200
       [("seeded", Int (Z.of_nat (List.length (absent_samples db))))],
     insert_products (absent_samples db) db).
Proof.
  unfold POST_api_seed, route, seed, bind.
  rewrite seed_loop_plan, (seed_plan_filter samples samples_distinct).
  reflexivity.
Qed.

Lemma slugs_insert_products (ps : list Product) :
  forall db,
    slugs (insert_products ps db) = (slugs db ++ map Product.slug ps)%list.
Proof.
  induction ps as [|p ps IH]; intros db.
  - simpl. rewrite app_nil_r. reflexivity.
  - cbn [insert_products fold_left map].
    change (fold_left _ ps ?d) with (insert_products ps d).
    rewrite IH, slugs_inserted, <- app_assoc. reflexivity.
Qed.

Lemma NoDup_insert_products (ps : list Product) :
  forall db,
    NoDup (slugs db) ->
    NoDup (slugs (insert_products (seed_plan ps db) db)).
Proof.
  induction ps as [|p ps IH]; intros db Hnd; [exact Hnd|].
  cbn [seed_plan].
  destruct (slug_exists (Product.slug p) db) eqn:S.
  - apply IH, Hnd.
  - cbn [insert_products fold_left].
    apply IH. rewrite slugs_inserted. apply NoDup_snoc; [exact Hnd|].
    intros Hin. apply slug_exists_In in Hin. congruence.
Qed.

Lemma handle_preserves_slugs (req : Request) (db : Database.t) :
  NoDup (slugs db) -> NoDup (slugs (handle req db)).
Proof.
  intros Hnd. destruct req; cbn [handle].
  - unfold exec, list_products, bind, get_documents.
    destruct (find_many _ _); exact Hnd.
  - rewrite exec_create_product, create_product_cases.
    destruct (slug_exists (Product.slug product) db) eqn:S; [exact Hnd|].
    cbn [snd]. rewrite slugs_inserted. apply NoDup_snoc; [exact Hnd|].
    intros Hin. apply slug_exists_In in Hin. congruence.
  - unfold exec, get_product, bind, find_one.
    destruct (find _ _); exact Hnd.
  - unfold exec. rewrite get_reviews_total. exact Hnd.
  - unfold exec, add_review.
    destruct (negb _); exact Hnd.
  - unfold exec, create_order.
    destruct (calc_subtotal order); [|exact Hnd].
    destruct (subtotal_mismatch f order); [exact Hnd|].
    destruct (total_mismatch order); exact Hnd.
  - unfold exec, subscribe, bind, find_one.
    destruct (find _ _); exact Hnd.
  - exact Hnd.
  - unfold exec, seed, bind. rewrite seed_loop_plan. cbn [snd].
    apply NoDup_insert_products, Hnd.
Qed.

(** C4. Slug uniqueness is preserved by every operation.  From a store
    whose Product slugs are pairwise distinct: every request leaves them
    pairwise distinct; create-product with a slug that exists answers 400
    SlugConflict and leaves the store as it was; two creates in a row with
    one slug leave exactly one document for it; and seed inserts no canned
    Product whose slug exists. *)
Theorem slug_uniqueness (db : Database.t) :
  NoDup (slugs db) ->
  (forall req : Request, NoDup (slugs (handle req db))) /\
  (forall product : Product,
     In (Product.slug product) (slugs db) ->
     POST_api_products product db = (SlugConflict, db)) /\
  (forall p1 p2 : Product,
     Product.slug p1 = Product.slug p2 ->
     count_occ string_dec
       (slugs (handle (CreateProduct p2) (handle (CreateProduct p1) db)))
       (Product.slug p1) = 1%nat) /\
  (forall p : Product,
     In (Product.slug p) (slugs db) -> ~ In p (absent_samples db)) /\
  slugs (handle Seed db)
    = (slugs db ++ map Product.slug (absent_samples db))%list.
Proof.
  intros Hnd. split; [|split; [|split; [|split]]].
  - intros req. apply handle_preserves_slugs, Hnd.
  - intros product Hin. rewrite create_product_cases.
    apply slug_exists_In in Hin. rewrite Hin. reflexivity.
  - intros p1 p2 E.
    apply NoDup_count_occ'.
    + apply handle_preserves_slugs, handle_preserves_slugs, Hnd.
    + cbn [handle]. rewrite !exec_create_product.
      assert (H1 : In (Product.slug p1)
                      (slugs (snd (POST_api_products p1 db)))).
      { rewrite create_product_cases.
        destruct (slug_exists (Product.slug p1) db) eqn:S; cbn [snd].
        - apply slug_exists_In, S.
        - rewrite slugs_inserted. apply in_or_app. right. left. reflexivity. }
      rewrite (create_product_cases p2).
      rewrite <- E. apply slug_exists_In in H1. rewrite H1. cbn [snd].
      apply slug_exists_In, H1.
  - intros p Hin Habs. unfold absent_samples in Habs.
    apply filter_In in Habs. destruct Habs as [_ Habs].
    apply slug_exists_In in Hin. rewrite Hin in Habs. discriminate.
  - cbn [handle]. unfold exec.
    pose proof (seed_cases db) as Hs.
    unfold POST_api_seed, route in Hs.
    destruct (seed db) as [r db'] eqn:Es.
    inversion Hs; subst. cbn [snd].
    apply slugs_insert_products.
Qed.

(** Witness of [slug_uniqueness]: the store after one seed. *)
Lemma slug_uniqueness_witness :
  POST_api_products (Sample.product "cap-toe-oxford-nero" "formal")
                    (handle Seed Database.empty)
  = (SlugConflict, handle Seed Database.empty).
Proof.
  refine (proj1 (proj2 (slug_uniqueness (handle Seed Database.empty) _))
                (Sample.product "cap-toe-oxford-nero" "formal") _).
  - apply handle_preserves_slugs. constructor.
  - left. reflexivity.
Defined.

(** C7. Seed is idempotent.  It inserts exactly those of its 3 canned
    Products whose slug is absent from the store and answers {seeded: n}
    with n the number inserted; once the three canned slugs exist it answers
    {seeded: 0} and leaves the store as it was, which is the case for a
    second call in a row. *)
Theorem seed_idempotent (db : Database.t) :
  List.length samples = 3%nat /\
  POST_api_seed db
    = (JSONResponse 200
         [("seeded", Int (Z.of_nat (List.length (absent_samples db))))],
       insert_products (absent_samples db) db) /\
  (forall p : Product,
     In p (absent_samples db) <->
     In p samples /\ ~ In (Product.slug p) (slugs db)) /\
  ((forall p : Product, In p samples -> In (Product.slug p) (slugs db)) ->
   POST_api_seed db = (JSONResponse 200 [("seeded", Int 0)], db)) /\
  POST_api_seed (snd (POST_api_seed db))
    = (JSONResponse 200 [("seeded", Int 0)], snd (POST_api_seed db)).
Proof.
  assert (Habs : forall db' p,
            In p (absent_samples db') <->
            In p samples /\ ~ In (Product.slug p) (slugs db')).
  { intros db' p. unfold absent_samples. rewrite filter_In.
    rewrite <- slug_exists_In.
    destruct (slug_exists (Product.slug p) db'); simpl;
      intuition congruence. }
  assert (Hall : forall db',
            (forall p, In p samples -> In (Product.slug p) (slugs db')) ->
            POST_api_seed db' = (JSONResponse 200 [("seeded", Int 0)], db')).
  { intros db' H. rewrite seed_cases.
    assert (E : absent_samples db' = []).
    { destruct (absent_samples db') as [|p l] eqn:El; [reflexivity|].
      assert (Hp : In p (absent_samples db')) by (rewrite El; left; reflexivity).
      apply Habs in Hp. destruct Hp as [Hp Hn]. elim Hn. apply H, Hp. }
    rewrite E. reflexivity. }
  split; [reflexivity|]. split; [apply seed_cases|].
  split; [apply Habs|]. split; [apply Hall|].
  apply Hall. intros p Hp. rewrite seed_cases. cbn [snd].
  rewrite slugs_insert_products. apply in_or_app.
  destruct (in_dec string_dec (Product.slug p) (slugs db)) as [Hin|Hin].
  - left. exact Hin.
  - right. apply in_map. apply Habs. split; assumption.
Qed.

(** Witness of [seed_idempotent]: the store after one seed holds the three
    canned slugs. *)
Lemma seed_idempotent_witness :
  POST_api_seed (handle Seed Database.empty)
  = (JSONResponse 200 [("seeded", Int 0)], handle Seed Database.empty).
Proof.
  refine (proj1 (proj2 (proj2 (proj2
            (seed_idempotent (handle Seed Database.empty))))) _).
  intros p [E|[E|[E|[]]]]; subst p; vm_compute; tauto.
Defined.

(* ================================================================= *)
(** ** Health check *)

(** C8. The health check never raises, whatever its probes find: it returns
    a report.  A missing store handle and a failing listing of collections
    are rendered in the [database] field, and the [collections] field holds
    at most 10 names: the first 10 listed. *)
Theorem test_database_never_raises (env : Health.Environ) :
  exists report : Health.Report,
    Health.test_database env = inr report /\
    (List.length (Health.collections report) <= 10)%nat /\
    Health.backend report = "✅ Running" /\
    match Health.db env with
    | None =>
        Health.database report = "⚠️  Available but not initialized" /\
        Health.connection_status report = "Not Connected" /\
        Health.collections report = []
    | Some h =>
        match Health.list_collection_names h with
        | inl e =>
            Health.database report
              = "⚠️  Connected but Error: " ++ Py.take 50 e /\
            Health.connection_status report = "Not Connected" /\
            Health.collections report = []
        | inr names =>
            Health.database report = "✅ Connected & Working" /\
            Health.connection_status report = "Connected" /\
            Health.collections report = firstn 10 names
        end
    end.
Proof.
  destruct env as [[[[e|names]]|] url name];
    unfold Health.test_database, Health.body, Health.try_except, Health.seq,
      Health.call, Health.set_database, Health.set_database_url,
      Health.set_database_name, Health.set_collections,
      Health.set_connection_status;
    cbn -[firstn Py.take String.append];
    eexists; (split; [reflexivity|]);
    cbn -[firstn Py.take String.append];
    repeat split; auto using firstn_le_length with arith.
Qed.

(** A listing of twelve collections is cut to its first ten names. *)
Example test_database_twelve :
  option_map (fun r => List.length (Health.collections r))
    match Health.test_database
            (Health.mkEnviron
               (Some (Health.mkHandle
                        (inr ["a"; "b"; "c"; "d"; "e"; "f"; "g"; "h"; "i";
                              "j"; "k"; "l"])))
               (Some "mongodb://localhost") None) with
    | inr r => Some r
    | inl _ => None
    end
  = Some 10%nat.
Proof. reflexivity. Qed.

(* ================================================================= *)
(** ** The category filter *)

Lemma list_ascii_app (s t : string) :
  list_ascii_of_string (s ++ t)
  = (list_ascii_of_string s ++ list_ascii_of_string t)%list.
Proof. induction s as [|c s IH]; simpl; [reflexivity | now rewrite IH]. Qed.

Lemma not_meta_literal (c : ascii) :
  Regex.is_ascii c && negb (Regex.is_meta c) = true ->
  Regex.parse_atom c = Some (Regex.Lit c) /\ Ascii.eqb c "*" = false.
Proof.
  intros H. apply andb_true_iff in H. destruct H as [Ha Hm].
  apply negb_true_iff in Hm. unfold Regex.parse_atom.
  rewrite Hm, Ha. simpl.
  split.
  - destruct (Ascii.eqb_spec c "."%char) as [E|E]; [|reflexivity].
    subst c. discriminate.
  - destruct (Ascii.eqb_spec c "*"%char) as [E|E]; [|reflexivity].
    subst c. discriminate.
Qed.

Lemma parse_body_plain (cs : list ascii) :
  forallb (fun c => Regex.is_ascii c && negb (Regex.is_meta c)) cs = true ->
  Regex.parse_body cs = Some (map (fun c => Regex.One (Regex.Lit c)) cs).
Proof.
  induction cs as [|c cs IH]; intros H; [reflexivity|].
  cbn [forallb] in H. apply andb_true_iff in H. destruct H as [Hc Hcs].
  cbn [Regex.parse_body map].
  destruct (not_meta_literal c Hc) as [Hp _]. rewrite Hp.
  destruct cs as [|c' cs']; [reflexivity|].
  assert (Hc' : Ascii.eqb c' "*" = false).
  { cbn [forallb] in Hcs. apply andb_true_iff in Hcs.
    apply (not_meta_literal c'), Hcs. }
  rewrite Hc', (IH Hcs). reflexivity.
Qed.

Lemma parse_anchored (category : string) :
  plain category = true ->
  Regex.parse ("^" ++ category ++ "$")
  = Some (map (fun c => Regex.One (Regex.Lit c))
              (list_ascii_of_string category)).
Proof.
  intros H. unfold Regex.parse.
  change ("^" ++ category ++ "$") with (String "^" (category ++ "$")).
  cbn [list_ascii_of_string]. rewrite list_ascii_app.
  change (list_ascii_of_string "$") with ["$"%char].
  rewrite rev_unit, rev_involutive.
  change (Ascii.eqb "^" "^") with true.
  change (Ascii.eqb "$" "$") with true.
  cbv iota. apply parse_body_plain, H.
Qed.

Lemma match_literal (category : string) :
  forall subject : string,
    single_line subject = true ->
    Regex.match_pieces true
      (map (fun c => Regex.One (Regex.Lit c)) (list_ascii_of_string category))
      (list_ascii_of_string subject)
    = eqb_nocase category subject.
Proof.
  unfold eqb_nocase, single_line.
  induction category as [|a category IH]; intros [|c subject] H;
    cbn [list_ascii_of_string map Regex.match_pieces lower_string String.eqb];
    try reflexivity.
  - cbn [list_ascii_of_string forallb] in H.
    apply andb_true_iff in H. destruct H as [Hc _].
    apply andb_true_iff in Hc. destruct Hc as [_ Hc].
    apply negb_true_iff in Hc.
    unfold Regex.at_end. rewrite Hc.
    destruct (list_ascii_of_string subject); reflexivity.
  - cbn [list_ascii_of_string forallb] in H.
    apply andb_true_iff in H. destruct H as [_ H].
    rewrite (IH subject H). cbn [Regex.atom_match].
    destruct (Ascii.eqb (Regex.lower a) (Regex.lower c)); reflexivity.
Qed.

Lemma single_line_is_ascii (s : string) :
  single_line s = true ->
  forallb Regex.is_ascii (list_ascii_of_string s) = true.
Proof.
  unfold single_line. induction (list_ascii_of_string s) as [|c l IH];
    cbn [forallb]; [reflexivity|].
  intros H. apply andb_true_iff in H. destruct H as [Hc Hl].
  apply andb_true_iff in Hc. destruct Hc as [Hc _].
  rewrite Hc, (IH Hl). reflexivity.
Qed.

(** On plain patterns and single-line subjects the store's match is
    equality up to letter case. *)
Lemma search_plain (category subject : string) :
  plain category = true ->
  single_line subject = true ->
  Regex.search ("^" ++ category ++ "$") "i" subject
  = Some (eqb_nocase category subject).
Proof.
  intros Hp Hs. unfold Regex.search.
  rewrite (parse_anchored category Hp).
  change (Regex.parse_options "i") with (Some true).
  cbv iota beta zeta.
  rewrite (single_line_is_ascii subject Hs), (match_literal category subject Hs).
  reflexivity.
Qed.

Lemma find_many_ext {A} (flt : A -> option bool) (f : A -> bool)
  (docs : list (Document A)) :
  (forall d, In d docs -> flt (fields d) = Some (f (fields d))) ->
  find_many flt docs = Some (filter (fun d => f (fields d)) docs).
Proof.
  induction docs as [|d docs IH]; intros H; [reflexivity|].
  cbn [find_many filter].
  rewrite (H d (or_introl eq_refl)), IH
    by (intros d' Hd'; apply H; right; exact Hd').
  destruct (f (fields d)); reflexivity.
Qed.

(** Without a usable category, only the [featured] key filters. *)
Lemma list_products_unfiltered (featured : option bool) (db : Database.t) :
  list_products None featured db
  = (inr (map fields
            (filter (fun d => featured_is featured (fields d))
                    (Database.products db))),
     db).
Proof.
  unfold list_products, bind, get_documents. cbn [Database.get].
  rewrite (find_many_ext _ (featured_is featured)); [reflexivity|].
  intros d _. destruct featured; reflexivity.
Qed.

(** C6 (as the code has it). For every non-empty category string made of
    ASCII characters other than regular-expression metacharacters, over
    stored categories that are ASCII without line feeds, list-products
    selects exactly the documents whose category equals the supplied string
    up to letter case (and that pass the featured flag): an anchored match
    of the whole string, so "Formal" selects category "formal" and not
    "formalwear".  An empty category string applies no category filter:
    every document that passes the featured flag is selected. *)
Theorem category_filter (featured : option bool) (db : Database.t) :
  (forall category : string,
     category <> "" ->
     plain category = true ->
     (forall d, In d (Database.products db) ->
                single_line (Product.category (fields d)) = true) ->
     list_products (Some category) featured db
     = (inr (map fields
               (filter (fun d =>
                          eqb_nocase category (Product.category (fields d))
                          && featured_is featured (fields d))
                       (Database.products db))),
        db)) /\
  list_products (Some "") featured db
  = (inr (map fields
            (filter (fun d => featured_is featured (fields d))
                    (Database.products db))),
     db) /\
  list_products (Some "Formal") None
    (insert_products [Sample.product "derby" "formal";
                      Sample.product "tails" "formalwear"] Database.empty)
  = (inr [Sample.product "derby" "formal"],
     insert_products [Sample.product "derby" "formal";
                      Sample.product "tails" "formalwear"] Database.empty).
Proof.
  split; [|split; [apply (list_products_unfiltered featured db)|reflexivity]].
  intros category Hne Hp Hs.
  unfold list_products.
  assert (Ht : Py.truthy category = true)
    by (destruct category; [contradiction | reflexivity]).
  rewrite Ht. unfold bind, get_documents. cbn [Database.get].
  rewrite (find_many_ext _
             (fun p => eqb_nocase category (Product.category p)
                       && featured_is featured p)); [reflexivity|].
  intros d Hd. unfold matches.
  destruct featured as [f|];
    cbn -[Regex.search eqb_nocase String.append];
    rewrite (search_plain category _ Hp (Hs d Hd)); reflexivity.
Qed.

(** Witness of [category_filter]: "Formal" over a store with the categories
    "formal" and "formalwear". *)
Lemma category_filter_witness :
  list_products (Some "Formal") (Some false)
    (insert_products [Sample.product "derby" "formal";
                      Sample.product "tails" "formalwear"] Database.empty)
  = (inr [Sample.product "derby" "formal"],
     insert_products [Sample.product "derby" "formal";
                      Sample.product "tails" "formalwear"] Database.empty).
Proof.
  refine (proj1 (category_filter (Some false) _) "Formal" _ _ _).
  - discriminate.
  - reflexivity.
  - intros d [E|[E|[]]]; subst d; reflexivity.
Defined.

(** C6 fails as stated: the empty category string selects every Product,
    also one whose category "formal" is not the empty string. *)
Lemma category_filter_empty_string :
  eqb_nocase "" "formal" = false /\
  list_products (Some "") None
    (insert_products [Sample.product "derby" "formal"] Database.empty)
  = (inr [Sample.product "derby" "formal"],
     insert_products [Sample.product "derby" "formal"] Database.empty).
Proof. split; reflexivity. Qed.

(** The supplied string is interpolated into the pattern as it is: a
    metacharacter keeps its meaning, so "formal.*" selects "formalwear". *)
Example category_filter_metacharacters :
  eqb_nocase "formal.*" "formalwear" = false /\
  list_products (Some "formal.*") None
    (insert_products [Sample.product "tails" "formalwear"] Database.empty)
  = (inr [Sample.product "tails" "formalwear"],
     insert_products [Sample.product "tails" "formalwear"] Database.empty).
Proof. split; reflexivity. Qed.

(** A pattern outside the modelled fragment is given no meaning. *)
Example category_filter_not_modelled :
  fst (list_products (Some "a|b") None
         (insert_products [Sample.product "derby" "formal"] Database.empty))
  = inl NotModelled.
Proof. reflexivity. Qed.

(* ================================================================= *)
(** * Further properties *)

(** ** Orders *)

Lemma Zsub_self (z : Z) : IntDef.Z.sub z z = 0.
Proof. exact (Z.sub_diag z). Qed.

(** A float minus itself is zero or not a number; its absolute value is
    never above the tolerance. *)
Lemma sub_self_within_tolerance (x : float) :
  Py.gt (abs (x - x)) 0.01 = false.
Proof.
  unfold Py.gt. rewrite ltb_spec, abs_spec, sub_spec, Prim2SF_tolerance.
  unfold SF64sub.
  destruct (Prim2SF x) as [s| s| |s m e]; unfold SFsub.
  - destruct s; reflexivity.
  - destruct s; reflexivity.
  - reflexivity.
  - rewrite Zsub_self. reflexivity.
Qed.

(** X1. An order whose stated subtotal is the computed sum and whose
    stated total is the computed subtotal + shipping_cost is accepted,
    whatever the values are (infinite and not-a-number amounts included). *)
Theorem create_order_exact_amounts (order : Order) (db : Database.t) :
  calc_subtotal order = Some (Order.subtotal order) ->
  Order.total order = (Order.subtotal order + Order.shipping_cost order)%float ->
  POST_api_orders order db
  = (order_received db, inserted Database.order order db).
Proof.
  intros Hcalc Htot.
  apply (create_order_accepts order db (Order.subtotal order) Hcalc).
  - apply sub_self_within_tolerance.
  - rewrite Htot. apply sub_self_within_tolerance.
Qed.

(** Witness of [create_order_exact_amounts]: two items at 100, shipping 10. *)
Lemma create_order_exact_amounts_witness :
  POST_api_orders (Sample.order [Sample.item 100 2] 200 10 210) Database.empty
  = (order_received Database.empty,
     inserted Database.order
       (Sample.order [Sample.item 100 2] 200 10 210) Database.empty).
Proof.
  refine (create_order_exact_amounts
            (Sample.order [Sample.item 100 2] 200 10 210) Database.empty _ _);
    vm_compute; reflexivity.
Defined.

Lemma sum_from_amounts (items1 items2 : list OrderItem) :
  map (fun i => (OrderItem.price i, OrderItem.quantity i)) items1
  = map (fun i => (OrderItem.price i, OrderItem.quantity i)) items2 ->
  forall acc, sum_from acc items1 = sum_from acc items2.
Proof.
  revert items2.
  induction items1 as [|i items1 IH]; intros [|j items2] H acc;
    try discriminate; [reflexivity|].
  cbn [map] in H. injection H as Hp Hq Hrest.
  cbn [sum_from]. unfold line_total. rewrite Hp, Hq.
  destruct (Py.float_of_int (OrderItem.quantity j)); [|reflexivity].
  cbn [option_map]. apply IH, Hrest.
Qed.

(** X2. The answer to create order depends only on the prices and
    quantities of the items and on the three stated amounts: product ids,
    titles, sizes, colours, the shipping address and the status are never
    looked at. *)
Theorem create_order_reads_amounts_only (o1 o2 : Order) (db : Database.t) :
  amounts o1 = amounts o2 ->
  fst (POST_api_orders o1 db) = fst (POST_api_orders o2 db).
Proof.
  unfold amounts. intros H. injection H as Hitems Hsub Hship Htot.
  unfold POST_api_orders, route, create_order, calc_subtotal,
    subtotal_mismatch, total_mismatch.
  rewrite (sum_from_amounts _ _ Hitems), Hsub, Hship, Htot.
  destruct (sum_from 0 (Order.items o2)) as [calc|]; [|reflexivity].
  destruct (Py.gt (abs (calc - Order.subtotal o2)) 0.01); [reflexivity|].
  destruct (Py.gt _ 0.01); reflexivity.
Qed.

(** Witness of [create_order_reads_amounts_only]: the same amounts under
    another product id, size, colour and status. *)
Lemma create_order_reads_amounts_only_witness :
  fst (POST_api_orders (Sample.order [Sample.item 100 2] 200 10 209.99)
                       Database.empty)
  = fst (POST_api_orders
           (Order.mk [OrderItem.mk "no-such-product" "" 100 0 "" 2]
                     Sample.address 200 10 209.99 "delivered")
           Database.empty).
Proof.
  refine (create_order_reads_amounts_only _ _ Database.empty _).
  reflexivity.
Defined.

(** X3. An order that is not accepted leaves the store exactly as it was,
    also when a line total cannot be computed; an accepted order appends
    the payload as it was sent to the orders and touches no other
    collection. *)
Theorem create_order_store (order : Order) (db : Database.t) :
  (fst (POST_api_orders order db) <> order_received db ->
   snd (POST_api_orders order db) = db) /\
  (fst (POST_api_orders order db) = order_received db ->
   Database.orders (snd (POST_api_orders order db))
     = (Database.orders db ++ [mkDocument (Database.next_id db) order])%list /\
   Database.products (snd (POST_api_orders order db)) = Database.products db /\
   Database.reviews (snd (POST_api_orders order db)) = Database.reviews db /\
   Database.newsletters (snd (POST_api_orders order db))
     = Database.newsletters db /\
   Database.contactmessages (snd (POST_api_orders order db))
     = Database.contactmessages db).
Proof.
  destruct (responses_distinct db) as (_ & Hsr & Htr).
  destruct (calc_subtotal order) as [calc|] eqn:Hcalc.
  - rewrite (create_order_cases order db calc Hcalc).
    destruct (Py.gt (abs (calc - Order.subtotal order)) 0.01).
    + split; [reflexivity | intros H; contradiction].
    + destruct (Py.gt _ 0.01).
      * split; [reflexivity | intros H; contradiction].
      * split; [intros H; elim H; reflexivity|].
        intros _. repeat split.
  - rewrite (create_order_overflow order db Hcalc).
    split; [reflexivity | discriminate].
Qed.

(* ================================================================= *)
(** ** The store under every operation *)

Lemma extends_refl (db : Database.t) : extends db db.
Proof. repeat split; exists []; symmetry; apply app_nil_r. Qed.

Lemma extends_trans (db1 db2 db3 : Database.t) :
  extends db1 db2 -> extends db2 db3 -> extends db1 db3.
Proof.
  intros (P1 & R1 & O1 & N1 & C1) (P2 & R2 & O2 & N2 & C2).
  destruct P1 as [p1 P1], P2 as [p2 P2], R1 as [r1 R1], R2 as [r2 R2],
    O1 as [o1 O1], O2 as [o2 O2], N1 as [n1 N1], N2 as [n2 N2],
    C1 as [c1 C1], C2 as [c2 C2].
  repeat split;
    [exists (p1 ++ p2)%list; rewrite P2, P1
    |exists (r1 ++ r2)%list; rewrite R2, R1
    |exists (o1 ++ o2)%list; rewrite O2, O1
    |exists (n1 ++ n2)%list; rewrite N2, N1
    |exists (c1 ++ c2)%list; rewrite C2, C1];
    symmetry; apply app_assoc.
Qed.

Lemma extends_inserted {A} (c : Database.collection A) (a : A)
  (db : Database.t) :
  extends db (inserted c a db).
Proof.
  destruct c; unfold extends, inserted; cbn;
    repeat split;
    first [ exists []; symmetry; apply app_nil_r
          | eexists; reflexivity ].
Qed.

Lemma extends_insert_products (ps : list Product) :
  forall db, extends db (insert_products ps db).
Proof.
  induction ps as [|p ps IH]; intros db; [apply extends_refl|].
  cbn [insert_products fold_left].
  apply (extends_trans _ (inserted Database.product p db)).
  - apply extends_inserted.
  - apply IH.
Qed.

Lemma exec_route (status_code : Z) (m : M json) (db : Database.t) :
  exec m db = snd (route status_code m db).
Proof. unfold exec, route. destruct (m db). reflexivity. Qed.

Lemma read_leaves_store (req : Request) (db : Database.t) :
  is_read req = true -> handle req db = db.
Proof.
  destruct req; try discriminate; intros _; cbn [handle]; unfold exec.
  - unfold list_products, bind, get_documents.
    destruct (find_many _ _); reflexivity.
  - unfold get_product, bind, find_one.
    destruct (find _ _); reflexivity.
  - rewrite get_reviews_total. reflexivity.
Qed.

(** X4. The three read operations (list products, get product, list
    reviews) never change the store, whatever their arguments and also when
    they fail. *)
Theorem reads_never_write (db : Database.t) :
  (forall category featured,
     snd (list_products category featured db) = db) /\
  (forall slug, snd (get_product slug db) = db) /\
  (forall product_id, snd (get_reviews product_id db) = db).
Proof.
  split; [|split]; intros.
  - apply (read_leaves_store (ListProducts category featured) db eq_refl).
  - apply (read_leaves_store (GetProduct slug) db eq_refl).
  - apply (read_leaves_store (GetReviews product_id) db eq_refl).
Qed.

Lemma write_extends (req : Request) (db : Database.t) :
  is_read req = false -> extends db (handle req db).
Proof.
  destruct req; try discriminate; intros _; cbn [handle].
  - rewrite exec_create_product, create_product_cases.
    destruct (slug_exists _ db);
      [apply extends_refl | apply extends_inserted].
  - rewrite (exec_route 201).
    change (route 201 (add_review product_id review))
      with (POST_api_products_reviews product_id review).
    rewrite add_review_cases.
    destruct (String.eqb _ _);
      [apply extends_inserted | apply extends_refl].
  - rewrite (exec_route 201).
    change (route 201 (create_order order)) with (POST_api_orders order).
    destruct (calc_subtotal order) as [calc|] eqn:Hcalc.
    + rewrite (create_order_cases order db calc Hcalc).
      destruct (Py.gt _ 0.01); [apply extends_refl|].
      destruct (Py.gt _ 0.01);
        [apply extends_refl | apply extends_inserted].
    + rewrite (create_order_overflow order db Hcalc). apply extends_refl.
  - rewrite (exec_route 201).
    change (route 201 (subscribe news)) with (POST_api_newsletter news).
    rewrite subscribe_cases.
    destruct (find _ _); [apply extends_refl | apply extends_inserted].
  - apply (extends_inserted Database.contactmessage msg db).
  - rewrite (exec_route 200). change (route 200 seed) with POST_api_seed.
    rewrite seed_cases. apply extends_insert_products.
Qed.

(** X5. No operation removes, reorders or rewrites a stored document: after
    every request each collection is what it was, followed by the documents
    the request wrote; so is it after any sequence of requests. *)
Theorem store_is_append_only (reqs : list Request) (db : Database.t) :
  extends db (fold_left (fun db req => handle req db) reqs db).
Proof.
  revert db. induction reqs as [|req reqs IH]; intros db.
  - apply extends_refl.
  - cbn [fold_left]. apply (extends_trans _ (handle req db)); [|apply IH].
    destruct (is_read req) eqn:R.
    + rewrite (read_leaves_store req db R). apply extends_refl.
    + apply write_extends, R.
Qed.

(* ================================================================= *)
(** ** Newsletter and contact *)

Lemma newsletters_insert_products (ps : list Product) :
  forall db,
    Database.newsletters (insert_products ps db) = Database.newsletters db.
Proof.
  induction ps as [|p ps IH]; intros db; [reflexivity|].
  cbn [insert_products fold_left].
  change (fold_left _ ps ?d) with (insert_products ps d).
  rewrite IH. reflexivity.
Qed.

Lemma handle_newsletters (req : Request) (db : Database.t) :
  (forall news, req <> Subscribe news) ->
  Database.newsletters (handle req db) = Database.newsletters db.
Proof.
  intros Hreq.
  destruct (is_read req) eqn:R;
    [rewrite (read_leaves_store req db R); reflexivity|].
  destruct req; try discriminate; cbn [handle].
  - rewrite exec_create_product, create_product_cases.
    destruct (slug_exists _ db); reflexivity.
  - rewrite (exec_route 201).
    change (route 201 (add_review product_id review))
      with (POST_api_products_reviews product_id review).
    rewrite add_review_cases. destruct (String.eqb _ _); reflexivity.
  - rewrite (exec_route 201).
    change (route 201 (create_order order)) with (POST_api_orders order).
    destruct (calc_subtotal order) as [calc|] eqn:Hcalc.
    + rewrite (create_order_cases order db calc Hcalc).
      destruct (Py.gt _ 0.01); [reflexivity|].
      destruct (Py.gt _ 0.01); reflexivity.
    + rewrite (create_order_overflow order db Hcalc). reflexivity.
  - elim (Hreq news). reflexivity.
  - reflexivity.
  - rewrite (exec_route 200). change (route 200 seed) with POST_api_seed.
    rewrite seed_cases. apply newsletters_insert_products.
Qed.

Lemma exec_subscribe (news : Newsletter) (db : Database.t) :
  exec (subscribe news) db
  = if existsb (fun d => email_is (Newsletter.email news) (fields d))
               (Database.newsletters db)
    then db
    else inserted Database.newsletter news db.
Proof.
  rewrite (exec_route 201).
  change (route 201 (subscribe news)) with (POST_api_newsletter news).
  rewrite subscribe_cases. cbn [Database.get].
  induction (Database.newsletters db) as [|d docs IH]; [reflexivity|].
  cbn [find existsb].
  destruct (email_is (Newsletter.email news) (fields d)); [reflexivity|].
  exact IH.
Qed.

Lemma existsb_email_In (email : string) (db : Database.t) :
  existsb (fun d => email_is email (fields d)) (Database.newsletters db) = true
  <-> In email (emails db).
Proof.
  unfold emails.
  induction (Database.newsletters db) as [|d docs IH]; cbn [existsb map In].
  - split; [discriminate | tauto].
  - unfold email_is at 1.
    destruct (String.eqb_spec (Newsletter.email (fields d)) email) as [E|E];
      cbn [orb].
    + split; auto.
    + rewrite IH. split; [auto | intros [H|H]; [contradiction | exact H]].
Qed.

(** X6. At most one newsletter record per email is an invariant of the
    store: if the stored emails are pairwise distinct, they are pairwise
    distinct after every request. *)
Theorem email_uniqueness (req : Request) (db : Database.t) :
  NoDup (emails db) -> NoDup (emails (handle req db)).
Proof.
  intros Hnd.
  destruct req;
    try (unfold emails; rewrite handle_newsletters by discriminate;
         exact Hnd).
  cbn [handle]. rewrite exec_subscribe.
  destruct (existsb _ _) eqn:E; [exact Hnd|].
  unfold emails, inserted. cbn. rewrite map_app. cbn [map].
  apply NoDup_snoc; [exact Hnd|].
  intros Hin.
  pose proof (proj2 (existsb_email_In (Newsletter.email news) db) Hin) as E'.
  rewrite E' in E. discriminate.
Qed.

(** Witness of [email_uniqueness]: a repeated subscription. *)
Lemma email_uniqueness_witness :
  NoDup (emails (handle (Subscribe Sample.news)
                        (handle (Subscribe Sample.news) Database.empty))).
Proof.
  refine (email_uniqueness (Subscribe Sample.news)
            (handle (Subscribe Sample.news) Database.empty) _).
  repeat constructor. simpl. tauto.
Defined.

(** X7. Subscribing is idempotent on the store and never fails: a second
    subscribe with the same email leaves the store as the first one left
    it, and after a subscribe the email is on record whatever was there
    before. *)
Theorem subscribe_idempotent (news : Newsletter) (db : Database.t) :
  handle (Subscribe news) (handle (Subscribe news) db)
    = handle (Subscribe news) db /\
  In (Newsletter.email news) (emails (handle (Subscribe news) db)) /\
  exists body, fst (POST_api_newsletter news db) = JSONResponse 201 body.
Proof.
  assert (Hin : In (Newsletter.email news)
                   (emails (handle (Subscribe news) db))).
  { cbn [handle]. rewrite exec_subscribe.
    destruct (existsb _ _) eqn:E.
    - apply existsb_email_In, E.
    - unfold emails, inserted. cbn. rewrite map_app.
      apply in_or_app. right. left. reflexivity. }
  split; [|split; [exact Hin|]].
  - cbn [handle] in *. rewrite (exec_subscribe news (exec _ _)).
    apply existsb_email_In in Hin. rewrite Hin. reflexivity.
  - rewrite subscribe_cases. destruct (find _ _); eexists; reflexivity.
Qed.

(** X8. Contact never rejects and never deduplicates: after any sequence
    of contact messages the collection holds what it held, followed by
    every message of the sequence in order, repeated ones included. *)
Theorem contact_keeps_every_message (msgs : list ContactMessage)
  (db : Database.t) :
  map fields
    (Database.contactmessages
       (fold_left (fun db msg => handle (Contact msg) db) msgs db))
  = (map fields (Database.contactmessages db) ++ msgs)%list /\
  forall msg, exists id,
    fst (POST_api_contact msg db)
    = JSONResponse 201 [("status", Str "received"); ("id", Str id)].
Proof.
  split; [|intros msg; eexists; reflexivity].
  revert db. induction msgs as [|msg msgs IH]; intros db.
  - cbn. rewrite app_nil_r. reflexivity.
  - cbn [fold_left]. rewrite IH.
    cbn. rewrite map_app, <- app_assoc. reflexivity.
Qed.

(* ================================================================= *)
(** ** Product lookups *)

Lemma get_product_cases (slug : string) (db : Database.t) :
  get_product slug db
  = match find (fun d => slug_is slug (fields d)) (Database.products db) with
    | Some d => (inr (Bson.str (_id d), fields d), db)
    | None => (inl (HTTPException 404 "Product not found"), db)
    end.
Proof.
  unfold get_product, bind, find_one. cbn [Database.get].
  destruct (find _ _); reflexivity.
Qed.

Lemma find_slug_app (slug : string) (docs more : list (Document Product)) :
  find (fun d => slug_is slug (fields d)) (docs ++ more)
  = match find (fun d => slug_is slug (fields d)) docs with
    | Some d => Some d
    | None => find (fun d => slug_is slug (fields d)) more
    end.
Proof.
  induction docs as [|d docs IH]; [reflexivity|].
  cbn [app find]. destruct (slug_is slug (fields d)); [reflexivity|exact IH].
Qed.

Lemma find_slug_None (slug : string) (db : Database.t) :
  find (fun d => slug_is slug (fields d)) (Database.products db) = None
  <-> ~ In slug (slugs db).
Proof.
  rewrite <- slug_exists_In.
  rewrite (find_slug slug db : _ <-> slug_exists slug db = false).
  destruct (slug_exists slug db); split; congruence.
Qed.

(** X9. Create then get is a round trip: when the slug is not in the
    store, create-product answers 201 with a new id, and get-product with
    that slug then returns the payload as it was sent under that same id. *)
Theorem create_then_get (product : Product) (db : Database.t) :
  ~ In (Product.slug product) (slugs db) ->
  POST_api_products product db
    = (JSONResponse 201 [("id", Str (fresh_id db))],
       inserted Database.product product db) /\
  get_product (Product.slug product) (inserted Database.product product db)
    = (inr (fresh_id db, product), inserted Database.product product db).
Proof.
  intros Habs. split.
  - rewrite create_product_cases.
    destruct (slug_exists (Product.slug product) db) eqn:S; [|reflexivity].
    apply slug_exists_In in S. contradiction.
  - rewrite get_product_cases.
    change (Database.products (inserted Database.product product db))
      with (Database.products db
            ++ [mkDocument (Database.next_id db) product])%list.
    rewrite find_slug_app, (proj2 (find_slug_None _ db) Habs).
    cbn [find fields]. unfold slug_is. rewrite String.eqb_refl. reflexivity.
Qed.

(** Witness of [create_then_get]: a first product in the empty store. *)
Lemma create_then_get_witness :
  get_product "derby"
    (inserted Database.product (Sample.product "derby" "formal")
              Database.empty)
  = (inr ("000000000000000000000000", Sample.product "derby" "formal"),
     inserted Database.product (Sample.product "derby" "formal")
              Database.empty).
Proof.
  refine (proj2 (create_then_get (Sample.product "derby" "formal")
                                 Database.empty _)).
  simpl. tauto.
Defined.

(** X10. Get product by slug answers 404 "Product not found" exactly when
    no stored Product has the slug; otherwise it returns a stored document
    whose slug is the requested one, the first in store order, with its
    identifier in wire form. *)
Theorem get_product_lookup (slug : string) (db : Database.t) :
  (get_product slug db = (inl (HTTPException 404 "Product not found"), db)
   <-> ~ In slug (slugs db)) /\
  (In slug (slugs db) ->
   exists before d after,
     Database.products db = (before ++ d :: after)%list /\
     ~ In slug (map (fun d => Product.slug (fields d)) before) /\
     Product.slug (fields d) = slug /\
     get_product slug db = (inr (Bson.str (_id d), fields d), db)).
Proof.
  rewrite get_product_cases. split.
  - rewrite <- find_slug_None.
    destruct (find _ _); split; congruence.
  - unfold slugs.
    induction (Database.products db) as [|d docs IH]; [intros []|].
    intros Hin. cbn [find]. unfold slug_is at 1.
    destruct (String.eqb_spec (Product.slug (fields d)) slug) as [E|E].
    + exists [], d, docs. repeat split; auto.
    + destruct Hin as [Hin|Hin]; [contradiction|].
      destruct (IH Hin) as (before & d' & after & Hd & Hb & Hs & Hg).
      exists (d :: before), d', after. repeat split.
      * rewrite Hd. reflexivity.
      * intros [H|H]; [contradiction | exact (Hb H)].
      * exact Hs.
      * exact Hg.
Qed.

(** Witness of [get_product_lookup]: a canned slug after a seed. *)
Lemma get_product_lookup_witness :
  exists before d after,
    Database.products (handle Seed Database.empty)
      = (before ++ d :: after)%list /\
    ~ In "wholecut-espresso"
         (map (fun d => Product.slug (fields d)) before) /\
    Product.slug (fields d) = "wholecut-espresso" /\
    get_product "wholecut-espresso" (handle Seed Database.empty)
      = (inr (Bson.str (_id d), fields d), handle Seed Database.empty).
Proof.
  refine (proj2 (get_product_lookup "wholecut-espresso"
                                    (handle Seed Database.empty)) _).
  right. right. left. reflexivity.
Defined.

Lemma handle_extends (req : Request) (db : Database.t) :
  extends db (handle req db).
Proof.
  destruct (is_read req) eqn:R.
  - rewrite (read_leaves_store req db R). apply extends_refl.
  - apply write_extends, R.
Qed.

Lemma find_slug_kept (slug : string) (db db' : Database.t) :
  extends db db' ->
  In slug (slugs db) ->
  find (fun d => slug_is slug (fields d)) (Database.products db')
  = find (fun d => slug_is slug (fields d)) (Database.products db).
Proof.
  intros ([l Hl] & _) Hin. rewrite Hl, find_slug_app.
  destruct (find _ (Database.products db)) eqn:E; [reflexivity|].
  apply find_slug_None in E. contradiction.
Qed.

(** X11. A slug that resolves keeps resolving to the same document: once
    a Product with the slug is stored, get-product returns the same answer
    after any sequence of requests, later creates and seeds included. *)
Theorem lookup_is_stable (slug : string) (reqs : list Request)
  (db : Database.t) :
  In slug (slugs db) ->
  fst (get_product slug (fold_left (fun db req => handle req db) reqs db))
  = fst (get_product slug db).
Proof.
  revert db. induction reqs as [|req reqs IH]; intros db Hin; [reflexivity|].
  cbn [fold_left].
  assert (Hin' : In slug (slugs (handle req db))).
  { destruct (handle_extends req db) as ([l Hl] & _).
    unfold slugs. rewrite Hl, map_app. apply in_or_app. left. exact Hin. }
  rewrite (IH _ Hin'), !get_product_cases.
  rewrite (find_slug_kept slug db _ (handle_extends req db) Hin).
  destruct (find _ _); reflexivity.
Qed.

(** Witness of [lookup_is_stable]: a canned slug, then a conflicting create
    and a second seed. *)
Lemma lookup_is_stable_witness :
  fst (get_product "wholecut-espresso"
         (fold_left (fun db req => handle req db)
            [CreateProduct (Sample.product "wholecut-espresso" "casual"); Seed]
            (handle Seed Database.empty)))
  = fst (get_product "wholecut-espresso" (handle Seed Database.empty)).
Proof.
  refine (lookup_is_stable "wholecut-espresso" _
                           (handle Seed Database.empty) _).
  right. right. left. reflexivity.
Defined.

(* ================================================================= *)
(** ** Reviews *)

(** X12. Add then list is a round trip: after a review is added under a
    product id, list-reviews for that id returns what it returned before
    followed by the new review under its new identifier, and the listing of
    every other id is what it was.  An id with no stored review lists as
    the empty sequence, not as an error. *)
Theorem add_then_list (product_id : string) (review : Review)
  (db : Database.t) :
  Review.product_id review = product_id ->
  get_reviews product_id db = (inr (reviews_of product_id db), db) /\
  get_reviews product_id (inserted Database.review review db)
    = (inr (reviews_of product_id db ++ [(fresh_id db, review)])%list,
       inserted Database.review review db) /\
  (forall other,
     other <> product_id ->
     get_reviews other (inserted Database.review review db)
       = (inr (reviews_of other db), inserted Database.review review db)) /\
  ((forall r, In r (Database.reviews db) ->
              Review.product_id (fields r) <> product_id) ->
   get_reviews product_id db = (inr [], db)).
Proof.
  intros E. rewrite !get_reviews_total.
  split; [reflexivity|]. split; [|split].
  - unfold reviews_of, inserted. cbn [snd Database.insert_one Database.get
      Database.set Database.bump Database.reviews].
    rewrite filter_app, map_app. cbn [filter fields].
    rewrite (proj2 (String.eqb_eq _ _) E). reflexivity.
  - intros other Hother. rewrite get_reviews_total.
    unfold reviews_of, inserted. cbn [snd Database.insert_one Database.get
      Database.set Database.bump Database.reviews].
    rewrite filter_app, map_app. cbn [filter fields].
    assert (N : String.eqb (Review.product_id review) other = false)
      by (apply String.eqb_neq; congruence).
    rewrite N. cbn [map]. rewrite app_nil_r. reflexivity.
  - intros Hnone. f_equal. f_equal.
    induction (Database.reviews db) as [|r rs IH]; [reflexivity|].
    cbn [filter].
    assert (N : String.eqb (Review.product_id (fields r)) product_id = false)
      by (apply String.eqb_neq, Hnone; left; reflexivity).
    rewrite N. apply IH. intros r' Hr'. apply Hnone. right. exact Hr'.
Qed.

(** Witness of [add_then_list]: a first review for "abc". *)
Lemma add_then_list_witness :
  get_reviews "abc" (inserted Database.review (Sample.review "abc")
                              Database.empty)
  = (inr [("000000000000000000000000", Sample.review "abc")],
     inserted Database.review (Sample.review "abc") Database.empty).
Proof.
  exact (proj1 (proj2 (add_then_list "abc" (Sample.review "abc")
                                     Database.empty eq_refl))).
Defined.

(* ================================================================= *)
(** ** Seed and lookups *)

Lemma products_insert_products (ps : list Product) :
  forall db, exists docs,
    Database.products (insert_products ps db)
      = (Database.products db ++ docs)%list /\
    map fields docs = ps.
Proof.
  induction ps as [|p ps IH]; intros db.
  - exists []. split; [symmetry; apply app_nil_r | reflexivity].
  - cbn [insert_products fold_left].
    destruct (IH (inserted Database.product p db)) as (docs & Hd & Hf).
    exists (mkDocument (Database.next_id db) p :: docs). split.
    + unfold insert_products in Hd. rewrite Hd.
      unfold inserted. cbn. rewrite <- app_assoc. reflexivity.
    + cbn [map fields]. rewrite Hf. reflexivity.
Qed.

Lemma NoDup_map_filter {A B} (f : A -> B) (g : A -> bool) (l : list A) :
  NoDup (map f l) -> NoDup (map f (filter g l)).
Proof.
  induction l as [|a l IH]; intros H; [constructor|].
  inversion H as [|? ? Ha Hl]; subst. cbn [filter].
  destruct (g a); [|apply IH, Hl].
  cbn [map]. constructor; [|apply IH, Hl].
  intros Hin. apply Ha. apply in_map_iff in Hin.
  destruct Hin as (x & Hx & Hin). apply filter_In in Hin.
  apply in_map_iff. exists x. tauto.
Qed.

Lemma find_slug_unique (p : Product) (docs : list (Document Product)) :
  NoDup (map Product.slug (map fields docs)) ->
  In p (map fields docs) ->
  exists d,
    find (fun d => slug_is (Product.slug p) (fields d)) docs = Some d /\
    fields d = p.
Proof.
  induction docs as [|d docs IH]; intros Hnd Hin; [destruct Hin|].
  cbn [map] in Hnd, Hin. inversion Hnd as [|? ? Hd Hds]; subst.
  cbn [find]. unfold slug_is at 1.
  destruct Hin as [E|Hin].
  - exists d. rewrite E, String.eqb_refl. auto.
  - destruct (String.eqb_spec (Product.slug (fields d)) (Product.slug p))
      as [E|E].
    + exfalso. apply Hd. rewrite E. apply in_map, Hin.
    + apply IH; assumption.
Qed.

(** X13. After a seed every canned slug resolves: get-product returns a
    Product with that slug, and it is the canned Product itself when the
    slug was not in the store before the seed (otherwise the Product that
    was already there is kept). *)
Theorem seed_then_get (p : Product) (db : Database.t) :
  In p samples ->
  exists id q,
    get_product (Product.slug p) (handle Seed db)
      = (inr (id, q), handle Seed db) /\
    Product.slug q = Product.slug p /\
    (~ In (Product.slug p) (slugs db) -> q = p) /\
    (In (Product.slug p) (slugs db) ->
     get_product (Product.slug p) db = (inr (id, q), db)).
Proof.
  intros Hp.
  assert (Hseed : handle Seed db = insert_products (absent_samples db) db).
  { cbn [handle]. rewrite (exec_route 200).
    change (route 200 seed) with POST_api_seed.
    rewrite seed_cases. reflexivity. }
  rewrite Hseed, get_product_cases.
  destruct (products_insert_products (absent_samples db) db)
    as (docs & Hd & Hf).
  rewrite Hd, find_slug_app.
  destruct (find (fun d => slug_is (Product.slug p) (fields d))
                 (Database.products db)) as [d|] eqn:E.
  - exists (Bson.str (_id d)), (fields d).
    assert (Hin : In (Product.slug p) (slugs db)).
    { destruct (in_dec string_dec (Product.slug p) (slugs db)) as [H|H];
        [exact H|].
      apply find_slug_None in H. congruence. }
    pose proof (find_some _ _ E) as [_ Es].
    repeat split.
    + apply String.eqb_eq, Es.
    + intros H. contradiction.
    + intros _. rewrite get_product_cases, E. reflexivity.
  - apply find_slug_None in E.
    assert (Habs : In p (absent_samples db)).
    { unfold absent_samples. apply filter_In. split; [exact Hp|].
      destruct (slug_exists (Product.slug p) db) eqn:S; [|reflexivity].
      apply slug_exists_In in S. contradiction. }
    destruct (find_slug_unique p docs) as (d & Hfind & Hfd).
    + rewrite Hf. unfold absent_samples.
      apply NoDup_map_filter, samples_distinct.
    + rewrite Hf. exact Habs.
    + exists (Bson.str (_id d)), (fields d). rewrite Hfind.
      repeat split.
      * rewrite Hfd. reflexivity.
      * intros _. exact Hfd.
      * intros H. contradiction.
Qed.

(** Witness of [seed_then_get]: the loafer, seeded into the empty store. *)
Lemma seed_then_get_witness :
  exists id q,
    get_product "handstitched-loafer-chestnut" (handle Seed Database.empty)
      = (inr (id, q), handle Seed Database.empty) /\
    Product.slug q = "handstitched-loafer-chestnut".
Proof.
  destruct (seed_then_get (nth 1 samples (Sample.product "" ""))
                          Database.empty)
    as (id & q & Hg & Hs & _).
  - right. left. reflexivity.
  - exists id, q. split; [exact Hg | exact Hs].
Defined.

(* ================================================================= *)
(** ** The health report *)

(** [s[:n]] is a prefix of [s] that ends between two characters and holds
    [n] characters, or all of [s] when [s] has no more. *)
Lemma take_prefix (s : string) :
  forall n : nat,
    (exists rest,
       s = Py.take n s ++ rest /\
       (rest = "" \/
        exists c r, rest = String c r /\ Py.is_continuation c = false)) /\
    Py.len (Py.take n s) = Nat.min n (Py.len s) /\
    (Py.len s <= n -> Py.take n s = s)%nat.
Proof.
  induction s as [|c s IH]; intros n.
  - cbn. repeat split; [exists ""; auto | destruct n; reflexivity].
  - cbn [Py.take Py.len].
    destruct (Py.is_continuation c) eqn:C.
    + destruct (IH n) as ((rest & Hrest & Hcut) & Hlen & Hall).
      repeat split.
      * exists rest. cbn [String.append]. rewrite <- Hrest. auto.
      * cbn [Py.len]. rewrite C. exact Hlen.
      * intros H. rewrite (Hall H). reflexivity.
    + destruct n as [|n].
      * repeat split; [|intros H; inversion H].
        exists (String c s). split; [reflexivity|].
        right. exists c, s. auto.
      * destruct (IH n) as ((rest & Hrest & Hcut) & Hlen & Hall).
        repeat split.
        -- exists rest. cbn [String.append]. rewrite <- Hrest. auto.
        -- cbn [Py.len Nat.min]. rewrite C, Hlen. reflexivity.
        -- intros H. rewrite (Hall (le_S_n _ _ H)). reflexivity.
Qed.


(** The report, by what the probes find. *)
Lemma test_database_report (env : Health.Environ) :
  Health.test_database env
  = inr match Health.db env with
        | None =>
            Health.mkReport "✅ Running" "⚠️  Available but not initialized"
              None None "Not Connected" []
        | Some h =>
            match Health.list_collection_names h with
            | inl e =>
                Health.mkReport "✅ Running"
                  ("⚠️  Connected but Error: " ++ Py.take 50 e)
                  (Some (Health.is_set (Health.DATABASE_URL env)))
                  (Some (Health.is_set (Health.DATABASE_NAME env)))
                  "Not Connected" []
            | inr names =>
                Health.mkReport "✅ Running" "✅ Connected & Working"
                  (Some (Health.is_set (Health.DATABASE_URL env)))
                  (Some (Health.is_set (Health.DATABASE_NAME env)))
                  "Connected" (firstn 10 names)
            end
        end.
Proof.
  destruct env as [[[[e|names]]|] url name]; reflexivity.
Qed.


(** X15. When the listing of collections raises, the report shows at most
    the first 50 characters of the exception text after a fixed label: the
    whole text when it has at most 50 characters, otherwise its first 50
    characters, cut between two characters; no collection is reported. *)
Theorem health_error_is_truncated (e : string) (url name : option string) :
  exists (report : Health.Report) (shown rest : string),
    Health.test_database
      (Health.mkEnviron (Some (Health.mkHandle (inl e))) url name)
      = inr report /\
    Health.database report = "⚠️  Connected but Error: " ++ shown /\
    e = shown ++ rest /\
    (rest = "" \/
     exists c r, rest = String c r /\ Py.is_continuation c = false) /\
    Py.len shown = Nat.min 50 (Py.len e) /\
    ((Py.len e <= 50)%nat -> shown = e) /\
    Health.collections report = [].
Proof.
  destruct (take_prefix e 50) as ((rest & Hrest & Hcut) & Hlen & Hall).
  eexists. exists (Py.take 50 e), rest.
  split; [apply test_database_report|].
  cbn [Health.db Health.list_collection_names Health.database
       Health.collections].
  repeat split; assumption.
Qed.

(** A text of 51 two-byte characters is cut after 50 of them, that is after
    100 bytes. *)
Example health_error_non_ascii :
  let e := String.concat "" (repeat "é" 51) in
  Py.len e = 51%nat /\
  Py.len (Py.take 50 e) = 50%nat /\
  String.length (Py.take 50 e) = 100%nat.
Proof. repeat split. Qed.

(* ================================================================= *)
(** ** Listing products *)

Lemma filter_partition_length {A} (f : A -> bool) (l : list A) :
  (List.length (filter f l) + List.length (filter (fun a => negb (f a)) l)
   = List.length l)%nat.
Proof.
  induction l as [|a l IH]; [reflexivity|].
  cbn [filter]. destruct (f a); cbn [negb List.length]; lia.
Qed.

(** X16. Without a category, list-products returns the stored Products in
    store order: all of them when no featured flag is given, and exactly
    those whose is_featured equals the flag when one is given, so that
    featured=false is a filter of its own and the two flagged listings
    split the catalogue between them. *)
Theorem list_products_by_flag (db : Database.t) :
  list_products None None db
    = (inr (map fields (Database.products db)), db) /\
  (forall f : bool,
     list_products None (Some f) db
     = (inr (filter (fun p => Bool.eqb (Product.is_featured p) f)
                    (map fields (Database.products db))),
        db)) /\
  exists featured plain_ones : list Product,
    fst (list_products None (Some true) db) = inr featured /\
    fst (list_products None (Some false) db) = inr plain_ones /\
    (List.length featured + List.length plain_ones
     = List.length (Database.products db))%nat.
Proof.
  assert (Hmap : forall (g : Product -> bool) (docs : list (Document Product)),
            map fields (filter (fun d => g (fields d)) docs)
            = filter g (map fields docs)).
  { intros g docs. induction docs as [|d docs IH]; [reflexivity|].
    cbn [filter map]. destruct (g (fields d)); cbn [map]; rewrite IH;
      reflexivity. }
  split; [|split].
  - rewrite list_products_unfiltered. cbn [featured_is].
    rewrite (Hmap (fun _ => true)). f_equal. f_equal.
    induction (map fields (Database.products db)) as [|p l IH];
      [reflexivity|]. cbn [filter]. rewrite IH. reflexivity.
  - intros f. rewrite list_products_unfiltered. cbn [featured_is].
    rewrite (Hmap (fun p => Bool.eqb (Product.is_featured p) f)).
    reflexivity.
  - eexists. eexists.
    rewrite !list_products_unfiltered. cbn [fst featured_is].
    split; [reflexivity|]. split; [reflexivity|].
    rewrite !length_map.
    rewrite <- (filter_partition_length
                  (fun d => Bool.eqb (Product.is_featured (fields d)) true)
                  (Database.products db)).
    f_equal. f_equal. apply filter_ext. intros d.
    destruct (Product.is_featured (fields d)); reflexivity.
Qed.

Lemma list_products_plain (category : string) (featured : option bool)
  (db : Database.t) :
  category <> "" ->
  plain category = true ->
  (forall d, In d (Database.products db) ->
             single_line (Product.category (fields d)) = true) ->
  list_products (Some category) featured db
  = (inr (map fields
            (filter (fun d =>
                       eqb_nocase category (Product.category (fields d))
                       && featured_is featured (fields d))
                    (Database.products db))),
     db).
Proof.
  intros Hne Hp Hs. unfold list_products.
  assert (Ht : Py.truthy category = true)
    by (destruct category; [contradiction | reflexivity]).
  rewrite Ht. unfold bind, get_documents. cbn [Database.get].
  rewrite (find_many_ext _
             (fun p => eqb_nocase category (Product.category p)
                       && featured_is featured p)); [reflexivity|].
  intros d Hd. unfold matches.
  destruct featured as [f|];
    cbn -[Regex.search eqb_nocase String.append];
    rewrite (search_plain category _ Hp (Hs d Hd)); reflexivity.
Qed.

(** X17. The letter case of the supplied category does not matter: two
    category strings without metacharacters that are equal up to letter
    case select the same Products (over stored categories that are ASCII
    without line feeds). *)
Theorem category_case_is_ignored (c1 c2 : string) (featured : option bool)
  (db : Database.t) :
  c1 <> "" ->
  plain c1 = true ->
  plain c2 = true ->
  lower_string c1 = lower_string c2 ->
  (forall d, In d (Database.products db) ->
             single_line (Product.category (fields d)) = true) ->
  list_products (Some c1) featured db = list_products (Some c2) featured db.
Proof.
  intros Hne Hp1 Hp2 Hlow Hs.
  assert (Hne2 : c2 <> "").
  { intros E. subst c2. destruct c1; [contradiction | discriminate]. }
  rewrite (list_products_plain c1 featured db Hne Hp1 Hs),
    (list_products_plain c2 featured db Hne2 Hp2 Hs).
  unfold eqb_nocase. rewrite Hlow. reflexivity.
Qed.

(** Witness of [category_case_is_ignored]: "FORMAL" and "Formal". *)
Lemma category_case_is_ignored_witness :
  list_products (Some "FORMAL") None (handle Seed Database.empty)
  = list_products (Some "Formal") None (handle Seed Database.empty).
Proof.
  refine (category_case_is_ignored "FORMAL" "Formal" None
            (handle Seed Database.empty) _ _ _ _ _);
    try reflexivity; try discriminate.
  intros d [E|[E|[E|[]]]]; subst d; reflexivity.
Defined.

(* ================================================================= *)
(** ** Creating and seeding products *)

(** X18. Create product answers 400 "Slug already exists" exactly when a
    stored Product has the same slug, compared as an exact string, and 201
    with a new id otherwise; nothing but the slug of the payload decides. *)
Theorem create_product_conflict_iff (product : Product) (db : Database.t) :
  (fst (POST_api_products product db) = SlugConflict
   <-> In (Product.slug product) (slugs db)) /\
  (fst (POST_api_products product db)
     = JSONResponse 201 [("id", Str (fresh_id db))]
   <-> ~ In (Product.slug product) (slugs db)) /\
  (forall other : Product,
     Product.slug other = Product.slug product ->
     fst (POST_api_products other db) = fst (POST_api_products product db)).
Proof.
  split; [|split].
  - rewrite create_product_cases, <- slug_exists_In.
    destruct (slug_exists (Product.slug product) db); cbn [fst];
      split; try reflexivity; discriminate.
  - rewrite create_product_cases, <- slug_exists_In.
    destruct (slug_exists (Product.slug product) db); cbn [fst]; split;
      try reflexivity; try discriminate; try congruence.
  - intros other E. rewrite !create_product_cases, E.
    destruct (slug_exists (Product.slug product) db); reflexivity.
Qed.

Lemma filter_all {A} (f : A -> bool) (l : list A) :
  List.length (filter f l) = List.length l <->
  (forall a, In a l -> f a = true).
Proof.
  induction l as [|a l IH]; cbn [filter List.length In].
  - split; [intros _ a [] | reflexivity].
  - pose proof (filter_length_le f l) as Hle.
    destruct (f a) eqn:Fa; cbn [List.length].
    + split.
      * intros H a' [<-|Ha']; [exact Fa|].
        apply IH; [lia | exact Ha'].
      * intros H. f_equal. apply IH. intros a' Ha'. apply H. right. exact Ha'.
    + split; [lia|]. intros H. specialize (H a (or_introl eq_refl)).
      congruence.
Qed.

Lemma filter_none {A} (f : A -> bool) (l : list A) :
  List.length (filter f l) = 0%nat <->
  (forall a, In a l -> f a = false).
Proof.
  induction l as [|a l IH]; cbn [filter In].
  - split; [intros _ a [] | reflexivity].
  - destruct (f a) eqn:Fa; cbn [List.length].
    + split; [discriminate|]. intros H.
      specialize (H a (or_introl eq_refl)). congruence.
    + rewrite IH. split.
      * intros H a' [<-|Ha']; [exact Fa | apply H, Ha'].
      * intros H a' Ha'. apply H. right. exact Ha'.
Qed.

(** X19. Seed always answers 200 {seeded: n} with n between 0 and 3; n is 3
    exactly when none of the canned slugs is in the store, and 0 exactly
    when all of them are. *)
Theorem seed_count (db : Database.t) :
  exists n : Z,
    fst (POST_api_seed db) = JSONResponse 200 [("seeded", Int n)] /\
    0 <= n <= 3 /\
    (n = 3 <->
     forall p, In p samples -> ~ In (Product.slug p) (slugs db)) /\
    (n = 0 <->
     forall p, In p samples -> In (Product.slug p) (slugs db)).
Proof.
  exists (Z.of_nat (List.length (absent_samples db))).
  rewrite seed_cases. split; [reflexivity|].
  unfold absent_samples.
  pose proof (filter_length_le
                (fun p => negb (slug_exists (Product.slug p) db)) samples)
    as Hle.
  change (List.length samples) with 3%nat in Hle.
  split; [lia|]. split.
  - replace 3 with (Z.of_nat (List.length samples)) by reflexivity.
    rewrite Nat2Z.inj_iff, filter_all.
    split; intros H p Hp; specialize (H p Hp).
    + rewrite <- slug_exists_In.
      destruct (slug_exists (Product.slug p) db); [discriminate|congruence].
    + rewrite <- slug_exists_In in H.
      destruct (slug_exists (Product.slug p) db);
        [elim H; reflexivity | reflexivity].
  - replace 0 with (Z.of_nat 0) by reflexivity.
    rewrite Nat2Z.inj_iff, filter_none.
    split; intros H p Hp; specialize (H p Hp).
    + apply slug_exists_In.
      destruct (slug_exists (Product.slug p) db); [reflexivity|discriminate].
    + apply slug_exists_In in H. rewrite H. reflexivity.
Qed.
